(** * Product orchestrator: the webhook handler and its pipeline

    A shallow embedding of [app/api/v1/endpoints/products.py] and of the
    request schema in [app/api/v1/schemas/telegram_webhook.py].

    The handler [create_product_from_webhook] is a straight-line pipeline of
    HTTP calls.  It is embedded as a computation in a small monad that
    threads the list of requests issued so far and propagates Python
    exceptions; the downstream services are an oracle from requests to
    outcomes.  JSON values received from the services are untyped in the
    source, so the dynamic operations applied to them ([.get], [in],
    subscripting, item assignment, truth testing) are embedded with the
    exceptions they raise on the wrong kind of value.

    The client raises, before anything is sent, on a request it cannot
    encode: a header value that is not ASCII, a JSON body holding a float
    that is not finite.  Such a request is not recorded and the services
    are not asked; the services answer only requests that were sent.

    Strings are kept as the UTF-8 bytes of the text.  Calls to [logger] are
    left out: they neither change control flow nor any value the handler
    sends or returns. *)

From Stdlib Require Import ZArith String Floats.PrimFloat.
From stdpp Require Import gmap strings list fin_maps pretty.

#[local] Set Warnings "-register-all".
#[local] Open Scope Z_scope.

(* ===================================================================== *)
(** ** Python values coming from JSON, and the dynamic operations on them *)
(* ===================================================================== *)

Module Py.

(** What [Response.json()] produces: [None], [bool], [int], [float], [str],
    [list] and [dict] with string keys.  Dictionaries compare by content,
    so they are finite maps. *)
Inductive json : Type :=
| JNull
| JBool (b : bool)
| JInt (n : Z)
| JFloat (f : float)
| JStr (s : string)
| JArr (l : list json)
| JObj (m : gmap string json).

(** The built-in exceptions the handler can run into; none of them is
    caught by the handler. *)
Inductive builtin_exn : Type :=
| AttributeError
| TypeError
| KeyError
| IndexError
| JSONDecodeError
| UnicodeEncodeError
| ValueError.

Definition res (A : Type) : Type := builtin_exn + A.

(** Truth value testing, as used by [if x] and [not x]. *)
Definition truthy (v : json) : bool :=
  match v with
  | JNull => false
  | JBool b => b
  | JInt n => negb (n =? 0)
  | JFloat f => negb (PrimFloat.eqb f 0%float)
  | JStr s => negb (String.eqb s "")
  | JArr l => match l with [] => false | _ :: _ => true end
  | JObj m => negb (bool_decide (m = ∅))
  end.

(** [v.get(key, default)]: only dictionaries have the method. *)
Definition get_default (v : json) (key : string) (default : json) : res json :=
  match v with
  | JObj m => inr (match m !! key with Some x => x | None => default end)
  | _ => inl AttributeError
  end.

(** [v.get(key)], whose default is [None]. *)
Definition get (v : json) (key : string) : res json :=
  get_default v key JNull.

(** [sub in s] on strings. *)
Definition str_contains (sub s : string) : bool :=
  match String.index 0 sub s with Some _ => true | None => false end.

Definition is_str (key : string) (v : json) : bool :=
  match v with JStr s => String.eqb key s | _ => false end.

(** [key in v] for a string [key]: key membership on a dictionary, element
    membership on a list, substring test on a string, [TypeError] on the
    values that are not containers. *)
Definition contains (key : string) (v : json) : res bool :=
  match v with
  | JObj m => inr (bool_decide (is_Some (m !! key)))
  | JArr l => inr (existsb (is_str key) l)
  | JStr s => inr (str_contains key s)
  | _ => inl TypeError
  end.

(** [v[key]] for a string [key]. *)
Definition getitem (v : json) (key : string) : res json :=
  match v with
  | JObj m => match m !! key with Some x => inr x | None => inl KeyError end
  | _ => inl TypeError
  end.

(** [v[key] = x] for a string [key]: in-place update of a dictionary,
    [TypeError] on every other value. *)
Definition setitem (v : json) (key : string) (x : json) : res json :=
  match v with
  | JObj m => inr (JObj (<[key := x]> m))
  | _ => inl TypeError
  end.

Fixpoint chars (s : string) : list json :=
  match s with
  | EmptyString => []
  | String c s' => JStr (String c EmptyString) :: chars s'
  end.

(** [for x in v]: the elements of a list, the keys of a dictionary, the
    characters of a string (one-character strings; here one per byte);
    [TypeError] on the rest. *)
Definition iter (v : json) : res (list json) :=
  match v with
  | JArr l => inr l
  | JObj m => inr (JStr <$> (map_to_list m).*1)
  | JStr s => inr (chars s)
  | _ => inl TypeError
  end.

(** [l[i]] on a Python list. *)
Definition index {A : Type} (l : list A) (i : nat) : res A :=
  match l !! i with Some x => inr x | None => inl IndexError end.

End Py.

Export Py.

(* ===================================================================== *)
(** ** The HTTP client *)
(* ===================================================================== *)

Module Httpx.

Inductive method : Type := GET | POST.

Record request : Type := Request {
  req_method : method;
  req_url : string;
  req_headers : list (string * string);
  req_json : option json
}.

(** What a service sends back: status line, body text, and the body parsed
    as JSON ([None] when the body is not JSON and [.json()] raises). *)
Record reply : Type := Reply {
  status_code : Z;
  text : string;
  body_json : option json
}.

(** Awaiting a call either yields a reply or raises a transport-level
    exception (connection error, timeout). *)
Inductive outcome : Type :=
| Replied (r : reply)
| Failed.

(** A text all of whose characters are ASCII: every byte below 128. *)
Definition is_ascii (s : string) : bool :=
  forallb
    (fun c => match c with Ascii.Ascii _ _ _ _ _ _ _ high => negb high end)
    (list_ascii_of_string s).

(** Header names and values are encoded as ASCII. *)
Definition headers_encodable (headers : list (string * string)) : bool :=
  forallb (fun kv => is_ascii kv.1 && is_ascii kv.2) headers.

(** The [json=] body is serialised with [allow_nan=False]: a NaN or an
    infinity anywhere in the value is refused. *)
Fixpoint json_encodable (v : json) : bool :=
  match v with
  | JFloat f => negb (PrimFloat.is_nan f || PrimFloat.is_infinity f)
  | JArr l => forallb json_encodable l
  | JObj m => map_fold (fun _ x rest => json_encodable x && rest) true m
  | JNull | JBool _ | JInt _ | JStr _ => true
  end.

(** What building a request does before anything is sent: the headers are
    encoded first ([UnicodeEncodeError]), then the body ([ValueError]). *)
Definition encode_request (rq : request) : Py.res unit :=
  if headers_encodable (req_headers rq) then
    if from_option json_encodable true (req_json rq) then inr tt
    else inl ValueError
  else inl UnicodeEncodeError.

Definition sendable (rq : request) : bool :=
  match encode_request rq with
  | inr _ => true
  | inl _ => false
  end.

(** The downstream services: what a request gets back.  A service answers
    only a request that can be sent. *)
Record world : Type := World {
  answer :> request -> outcome;
  answer_sent : forall rq r, answer rq = Replied r -> sendable rq = true
}.

(** An [httpx.Response] knows the request it answers. *)
Record response : Type := Response {
  request_of : request;
  reply_of : reply
}.

(** [Response.is_success]: the 2xx range.  [raise_for_status] raises
    [HTTPStatusError] exactly when it does not hold. *)
Definition is_success (r : reply) : bool :=
  (200 <=? status_code r) && (status_code r <=? 299).

End Httpx.

Export Httpx.

(* ===================================================================== *)
(** ** The request schema *)
(* ===================================================================== *)

Module Schemas.

(** [HttpUrl] fields are kept as the text of the validated URL. *)
Record RawMessage : Type := { message : string }.

Record RawDataJson : Type := {
  raw_message : RawMessage;
  photos : list string;
  stock : Z;
  video : option string
}.

Record TelegramWebhookPayload : Type := {
  raw_data_json : RawDataJson;
  access_token : string
}.

End Schemas.

Export Schemas.

(* ===================================================================== *)
(** ** The endpoint *)
(* ===================================================================== *)

Module Products.

(** *** External service URLs *)

Definition SMART_UPLOADER_URL : string :=
  "https://smart-uploader.basalam.dev/process-images".
Definition VIDEO_CHECK_URL : string :=
  "https://dwh-n8n.basalam.dev/webhook-test/Video-Check".
Definition DESCRIPTION_SERVICE_URL : string :=
  "https://request-maker.basalam.dev/api/v1/generate-description".
Definition BASALAM_USER_INFO_URL : string :=
  "https://core.basalam.com/v3/users/me".

(** The two halves of [BASALAM_PRODUCTS_URL_TEMPLATE] around its
    [{vendor_id}] field. *)
Definition BASALAM_PRODUCTS_URL_PREFIX : string :=
  "https://core.basalam.com/v3/vendors/".
Definition BASALAM_PRODUCTS_URL_SUFFIX : string := "/products".

(** *** Exceptions and the handler monad *)

Inductive exn : Type :=
| HTTPException (status : Z) (detail : string)   (* fastapi *)
| HTTPStatusError (e : response)                 (* httpx, [raise_for_status] *)
| TransportError                                 (* httpx, raised by an awaited call *)
| Builtin (e : builtin_exn).

(** A computation takes the requests issued so far and gives them back,
    extended, with an exception or a value. *)
Definition M (A : Type) : Type := list request -> list request * (exn + A).

Definition ret {A} (a : A) : M A := fun tr => (tr, inr a).

Definition raise {A} (e : exn) : M A := fun tr => (tr, inl e).

Definition bind {A B} (m : M A) (k : A -> M B) : M B :=
  fun tr =>
    match m tr with
    | (tr', inl e) => (tr', inl e)
    | (tr', inr a) => k a tr'
    end.

Notation "'let*' x ':=' c1 'in' c2" := (bind c1 (fun x => c2))
  (at level 10, x pattern, c1 at level 100, c2 at level 200).

Notation "c1 ;; c2" := (bind c1 (fun _ => c2))
  (at level 100, c2 at level 200, right associativity).

(** [try: body except httpx.HTTPStatusError as e: handler]. *)
Definition try_except {A} (body : M A) (handler : response -> M A) : M A :=
  fun tr =>
    match body tr with
    | (tr', inl (HTTPStatusError e)) => handler e tr'
    | r => r
    end.

(** A dynamic operation on a Python value, inside the handler. *)
Definition py {A} (r : Py.res A) : M A :=
  match r with
  | inl e => raise (Builtin e)
  | inr a => ret a
  end.

Definition raise_for_status (r : response) : M unit :=
  if is_success (reply_of r) then ret tt else raise (HTTPStatusError r).

(** [Response.json()]. *)
Definition response_json (r : response) : M json :=
  match body_json (reply_of r) with
  | Some j => ret j
  | None => raise (Builtin JSONDecodeError)
  end.

(** Truth value of an optional URL text: [None] and the empty text are
    falsy. *)
Definition url_truthy (u : option string) : bool :=
  match u with
  | Some s => negb (String.eqb s "")
  | None => false
  end.

(** What one entry of [asyncio.gather(..., return_exceptions=True)] holds. *)
Inductive gathered : Type :=
| Got (r : response)
| Exc.

(** [res.status_code], [res.raise_for_status()] and the like need a
    response; an exception object has no such attribute. *)
Definition as_response (g : gathered) : M response :=
  match g with
  | Got r => ret r
  | Exc => raise (Builtin AttributeError)
  end.

(** [[img['id'] for img in processed_images if 'id' in img]]. *)
Fixpoint collect_ids (imgs : list json) : Py.res (list json) :=
  match imgs with
  | [] => inr []
  | img :: rest =>
      match contains "id" img with
      | inl e => inl e
      | inr true =>
          match getitem img "id" with
          | inl e => inl e
          | inr x =>
              match collect_ids rest with
              | inl e => inl e
              | inr xs => inr (x :: xs)
              end
          end
      | inr false => collect_ids rest
      end
  end.

Section Handler.

(** [str.format] applied to the vendor id taken from the user-info JSON:
    the text Python prints for that value. *)
Variable py_format : json -> string.

Variable w : world.

Definition BASALAM_PRODUCTS_URL_TEMPLATE_format (vendor_id : json) : string :=
  BASALAM_PRODUCTS_URL_PREFIX +:+ py_format vendor_id +:+ BASALAM_PRODUCTS_URL_SUFFIX.

(** Issue a request and record it. *)
Definition send (rq : request) : M outcome :=
  fun tr => (tr ++ [rq], inr (w rq)).

(** [await client.get(...)], [await client.post(...)]: the request is
    built, which raises when it cannot be encoded, then sent. *)
Definition await (rq : request) : M response :=
  py (encode_request rq) ;;
  let* o := send rq in
  match o with
  | Replied r => ret (Response rq r)
  | Failed => raise TransportError
  end.

(** The requests [client.get(url, headers=...)] and
    [client.post(url, json=..., headers=...)] stand for. *)
Definition client_get (url : string) (headers : list (string * string)) : request :=
  Request GET url headers None.

Definition client_post (url : string) (body : json) (headers : list (string * string)) : request :=
  Request POST url headers (Some body).

(** [await asyncio.gather] over the tasks with [return_exceptions=True]:
    every task runs to completion, and whatever a task raises, while
    building its request or while waiting for the answer, is returned in
    its place.  The tasks run concurrently; their requests are recorded in
    the order the tasks were created. *)
Fixpoint gather (tasks : list request) : M (list gathered) :=
  match tasks with
  | [] => ret []
  | rq :: rest =>
      let* g :=
        match encode_request rq with
        | inl _ => ret Exc
        | inr _ =>
            let* o := send rq in
            ret (match o with Replied r => Got (Response rq r) | Failed => Exc end)
        end in
      let* gs := gather rest in
      ret (g :: gs)
  end.

(** The loop over [enumerate(responses)], from index [i] on. *)
Fixpoint check_exceptions (task_urls : list string) (i : nat)
    (responses : list gathered) : M unit :=
  match responses with
  | [] => ret tt
  | Exc :: _ =>
      let* failed_url := py (index task_urls i) in
      raise (HTTPException 504 ("Network error for " +:+ failed_url))
  | Got _ :: rest => check_exceptions task_urls (S i) rest
  end.

(** Step 1.5: user info and vendor id. *)
Definition resolve_vendor (access_token : string) : M (json * string) :=
  try_except
    (let headers := [("Authorization", "Bearer " +:+ access_token)] in
     let* user_info_response := await (client_get BASALAM_USER_INFO_URL headers) in
     raise_for_status user_info_response ;;
     let* user_data := response_json user_info_response in
     let* vendor := py (get_default user_data "vendor" (JObj ∅)) in
     let* vendor_id := py (get vendor "id") in
     if negb (truthy vendor_id) then
       raise (HTTPException 400 "User does not have a valid vendor account.")
     else
       ret (vendor_id, BASALAM_PRODUCTS_URL_TEMPLATE_format vendor_id))
    (fun e =>
       raise (HTTPException 401 ("Authentication failed: " +:+ text (reply_of e)))).

(** Step 2: images and video, issued together. *)
Definition process_media (photo_links : list string) (video_link : option string)
    : M (list json * json) :=
  try_except
    (let tasks := [client_post SMART_UPLOADER_URL
                     (JObj {[ "photo_links" := JArr (JStr <$> photo_links) ]}) []] in
     let task_urls := [SMART_UPLOADER_URL] in
     let video_task_present := url_truthy video_link in
     let tasks :=
       if video_task_present then
         tasks ++ [client_post VIDEO_CHECK_URL
                     (JObj {[ "video-link" := JStr (default "" video_link) ]}) []]
       else tasks in
     let task_urls :=
       if video_task_present then task_urls ++ [VIDEO_CHECK_URL] else task_urls in
     let* responses := gather tasks in
     check_exceptions task_urls 0 responses ;;
     let* image_response := (let* g := py (index responses 0) in as_response g) in
     raise_for_status image_response ;;
     let* image_json := response_json image_response in
     let* processed_images := py (get_default image_json "processed_images" (JArr [])) in
     let* imgs := py (iter processed_images) in
     let* image_ids := py (collect_ids imgs) in
     match image_ids with
     | [] => raise (HTTPException 400 "Uploader service returned no valid image IDs.")
     | _ :: _ =>
         let* video_id :=
           (if video_task_present then
              let* video_response := (let* g := py (index responses 1) in as_response g) in
              raise_for_status video_response ;;
              let* video_json := response_json video_response in
              let* is_forbidden := py (get video_json "is_forbidden") in
              if negb (truthy is_forbidden) then
                let* video_json := response_json video_response in
                py (get video_json "id")
              else ret JNull
            else ret JNull) in
         ret (image_ids, video_id)
     end)
    (fun e =>
       raise (HTTPException 502
                ("Error from media service " +:+ req_url (request_of e) +:+ ": "
                 +:+ text (reply_of e)))).

(** Step 4: media ids and fixed fields written into the draft. *)
Definition inject_media (basalam_ready_payload : json) (image_ids : list json)
    (video_id vendor_id : json) (stock : Z) : M json :=
  let* p :=
    match image_ids with
    | first :: others =>
        let* p := py (setitem basalam_ready_payload "photo" first) in
        py (setitem p "photos" (JArr others))
    | [] => ret basalam_ready_payload
    end in
  let* p := (if truthy video_id then py (setitem p "video" video_id) else ret p) in
  let* p := py (setitem p "vendor_id" vendor_id) in
  let* p := py (setitem p "preparation_days" (JInt 1)) in
  let* p := py (setitem p "stock" (JInt stock)) in
  let* p := py (setitem p "unit_type" (JInt 6304)) in
  py (setitem p "unit_quantity" (JInt 1)).

(** Steps 3 and 4: the description service seeds the draft. *)
Definition prepare_payload (description : string) (image_ids : list json)
    (video_id vendor_id : json) (stock : Z) : M json :=
  try_except
    (let new_service_payload := JObj {[ "raw_text" := JStr description ]} in
     let* prep_response := await (client_post DESCRIPTION_SERVICE_URL new_service_payload []) in
     raise_for_status prep_response ;;
     let* prep_json := response_json prep_response in
     let* basalam_ready_payload := py (get prep_json "data") in
     if negb (truthy basalam_ready_payload) then
       raise (HTTPException 500 "Received invalid payload from description service.")
     else
       inject_media basalam_ready_payload image_ids video_id vendor_id stock)
    (fun e =>
       raise (HTTPException 502 ("Error from Description service: " +:+ text (reply_of e)))).

(** Step 5: final submission. *)
Definition submit (basalam_final_url access_token : string)
    (basalam_ready_payload : json) : M json :=
  try_except
    (let headers := [("Authorization", "Bearer " +:+ access_token)] in
     let* final_response :=
       await (client_post basalam_final_url basalam_ready_payload headers) in
     raise_for_status final_response ;;
     let* basalam_response := response_json final_response in
     ret (JObj (<[ "status" := JStr "success" ]>
               (<[ "message" := JStr "Product orchestrated and submitted successfully." ]>
               (<[ "submitted_payload" := basalam_ready_payload ]>
               (<[ "basalam_response" := basalam_response ]> ∅))))))
    (fun e =>
       raise (HTTPException 502
                ("Final submission to Basalam API failed: " +:+ text (reply_of e)))).

(** The endpoint [POST /products/create_from_webhook]. *)
Definition create_product_from_webhook (payload : TelegramWebhookPayload) : M json :=
  let description := message (raw_message (raw_data_json payload)) in
  let photo_links := photos (raw_data_json payload) in
  let video_link :=
    if url_truthy (video (raw_data_json payload))
    then video (raw_data_json payload) else None in
  let stock := stock (raw_data_json payload) in
  let access_token := access_token payload in
  let* (vendor_id, basalam_final_url) := resolve_vendor access_token in
  let* (image_ids, video_id) := process_media photo_links video_link in
  let* basalam_ready_payload :=
    prepare_payload description image_ids video_id vendor_id stock in
  submit basalam_final_url access_token basalam_ready_payload.

(** One request served from a fresh client: the calls made and the result. *)
Definition run (payload : TelegramWebhookPayload) : list request * (exn + json) :=
  create_product_from_webhook payload [].

End Handler.

(* ===================================================================== *)
(** ** Requests, drafts and call classification used in the statements *)
(* ===================================================================== *)

Definition auth_headers (access_token : string) : list (string * string) :=
  [("Authorization", "Bearer " +:+ access_token)].

Definition user_info_request (access_token : string) : request :=
  Request GET BASALAM_USER_INFO_URL (auth_headers access_token) None.

Definition image_request (photo_links : list string) : request :=
  Request POST SMART_UPLOADER_URL []
    (Some (JObj {[ "photo_links" := JArr (JStr <$> photo_links) ]})).

Definition video_request (video_link : string) : request :=
  Request POST VIDEO_CHECK_URL [] (Some (JObj {[ "video-link" := JStr video_link ]})).

Definition description_request (description : string) : request :=
  Request POST DESCRIPTION_SERVICE_URL [] (Some (JObj {[ "raw_text" := JStr description ]})).

Definition submission_request (url access_token : string) (draft : json) : request :=
  Request POST url (auth_headers access_token) (Some draft).

(** The calls of the media stage, in the order the tasks are created. *)
Definition media_requests (photo_links : list string) (video_link : option string)
    : list request :=
  image_request photo_links ::
  (if url_truthy video_link then [video_request (default "" video_link)] else []).

(** The video link the handler derives from the payload in step 1. *)
Definition video_link_of (payload : TelegramWebhookPayload) : option string :=
  if url_truthy (video (raw_data_json payload))
  then video (raw_data_json payload) else None.

(** What the video checker answered, when it was asked. *)
Definition video_outcome (w : world) (video_link : option string) : option outcome :=
  if url_truthy video_link
  then Some (w (video_request (default "" video_link))) else None.

(** A call to the vendor-specific product endpoint. *)
Definition is_submission_call (rq : request) : bool :=
  String.prefix BASALAM_PRODUCTS_URL_PREFIX (req_url rq).

Definition is_description_call (rq : request) : bool :=
  String.eqb (req_url rq) DESCRIPTION_SERVICE_URL.

Definition is_video_check_call (rq : request) : bool :=
  String.eqb (req_url rq) VIDEO_CHECK_URL.

(** The drafts posted to the product endpoint, in order. *)
Definition submitted_drafts (calls : list request) : list json :=
  omap req_json (List.filter is_submission_call calls).

(** Lines 105-106 as a function of the image service's JSON. *)
Definition extract_image_ids (image_json : json) : Py.res (list json) :=
  match get_default image_json "processed_images" (JArr []) with
  | inl e => inl e
  | inr processed_images =>
      match iter processed_images with
      | inl e => inl e
      | inr imgs => collect_ids imgs
      end
  end.

(** The [id] of a processed image that is a JSON object. *)
Definition id_of (img : json) : option json :=
  match img with
  | JObj o => o !! "id"
  | _ => None
  end.

Definition is_obj (v : json) : Prop :=
  match v with JObj _ => True | _ => False end.

(** The draft after step 4, as a map: the description service's [data]
    with the media ids and the fixed fields written over it. *)
Definition with_photos (image_ids : list json) (m : gmap string json) : gmap string json :=
  match image_ids with
  | first :: others => <[ "photos" := JArr others ]> (<[ "photo" := first ]> m)
  | [] => m
  end.

Definition with_video (video_id : json) (m : gmap string json) : gmap string json :=
  if truthy video_id then <[ "video" := video_id ]> m else m.

Definition final_draft (data : gmap string json) (image_ids : list json)
    (video_id vendor_id : json) (stock : Z) : gmap string json :=
  <[ "unit_quantity" := JInt 1 ]>
  (<[ "unit_type" := JInt 6304 ]>
  (<[ "stock" := JInt stock ]>
  (<[ "preparation_days" := JInt 1 ]>
  (<[ "vendor_id" := vendor_id ]>
  (with_video video_id
  (with_photos image_ids data)))))).


(** The body of the success answer. *)
Definition success_body (draft basalam_response : json) : json :=
  JObj (<[ "status" := JStr "success" ]>
       (<[ "message" := JStr "Product orchestrated and submitted successfully." ]>
       (<[ "submitted_payload" := draft ]>
       (<[ "basalam_response" := basalam_response ]> ∅)))).

(** *** What each stage yields, as a function of what the services answered *)

Definition vendor_result (py_format : json -> string) (o : outcome)
    : exn + (json * string) :=
  match o with
  | Failed => inl TransportError
  | Replied r =>
      if is_success r then
        match body_json r with
        | None => inl (Builtin JSONDecodeError)
        | Some user_data =>
            match get_default user_data "vendor" (JObj ∅) with
            | inl e => inl (Builtin e)
            | inr vendor =>
                match get vendor "id" with
                | inl e => inl (Builtin e)
                | inr vendor_id =>
                    if truthy vendor_id
                    then inr (vendor_id,
                              BASALAM_PRODUCTS_URL_TEMPLATE_format py_format vendor_id)
                    else inl (HTTPException 400
                                "User does not have a valid vendor account.")
                end
            end
        end
      else inl (HTTPException 401 ("Authentication failed: " +:+ text r))
  end.

Definition image_result (r : reply) : exn + list json :=
  if is_success r then
    match body_json r with
    | None => inl (Builtin JSONDecodeError)
    | Some image_json =>
        match extract_image_ids image_json with
        | inl e => inl (Builtin e)
        | inr [] => inl (HTTPException 400 "Uploader service returned no valid image IDs.")
        | inr (first :: others) => inr (first :: others)
        end
    end
  else inl (HTTPException 502
              ("Error from media service " +:+ SMART_UPLOADER_URL +:+ ": " +:+ text r)).

Definition video_result (r : reply) : exn + json :=
  if is_success r then
    match body_json r with
    | None => inl (Builtin JSONDecodeError)
    | Some video_json =>
        match get video_json "is_forbidden" with
        | inl e => inl (Builtin e)
        | inr is_forbidden =>
            if truthy is_forbidden then inr JNull
            else match get video_json "id" with
                 | inl e => inl (Builtin e)
                 | inr video_id => inr video_id
                 end
        end
    end
  else inl (HTTPException 502
              ("Error from media service " +:+ VIDEO_CHECK_URL +:+ ": " +:+ text r)).

Definition media_result (image : outcome) (video : option outcome)
    : exn + (list json * json) :=
  match image, video with
  | Failed, _ => inl (HTTPException 504 ("Network error for " +:+ SMART_UPLOADER_URL))
  | Replied _, Some Failed =>
      inl (HTTPException 504 ("Network error for " +:+ VIDEO_CHECK_URL))
  | Replied ir, None =>
      match image_result ir with
      | inl e => inl e
      | inr image_ids => inr (image_ids, JNull)
      end
  | Replied ir, Some (Replied vr) =>
      match image_result ir with
      | inl e => inl e
      | inr image_ids =>
          match video_result vr with
          | inl e => inl e
          | inr video_id => inr (image_ids, video_id)
          end
      end
  end.

Definition inject_result (p : json) (image_ids : list json) (video_id vendor_id : json)
    (stock : Z) : exn + json :=
  match p with
  | JObj data => inr (JObj (final_draft data image_ids video_id vendor_id stock))
  | _ => inl (Builtin TypeError)
  end.

Definition draft_result (o : outcome) (image_ids : list json) (video_id vendor_id : json)
    (stock : Z) : exn + json :=
  match o with
  | Failed => inl TransportError
  | Replied r =>
      if is_success r then
        match body_json r with
        | None => inl (Builtin JSONDecodeError)
        | Some prep_json =>
            match get prep_json "data" with
            | inl e => inl (Builtin e)
            | inr data =>
                if truthy data
                then inject_result data image_ids video_id vendor_id stock
                else inl (HTTPException 500
                            "Received invalid payload from description service.")
            end
        end
      else inl (HTTPException 502 ("Error from Description service: " +:+ text r))
  end.

Definition submit_result (o : outcome) (draft : json) : exn + json :=
  match o with
  | Failed => inl TransportError
  | Replied r =>
      if is_success r then
        match body_json r with
        | None => inl (Builtin JSONDecodeError)
        | Some basalam_response => inr (success_body draft basalam_response)
        end
      else inl (HTTPException 502
                  ("Final submission to Basalam API failed: " +:+ text r))
  end.

(** *** Situations the statements talk about *)

(** The user-info service answered 2xx with a JSON object whose
    [vendor.id] is the given, truthy, value. *)
Definition vendor_is (w : world) (access_token : string) (vendor_id : json) : Prop :=
  exists r user_data vendor,
    w (user_info_request access_token) = Replied r /\
    is_success r = true /\
    body_json r = Some (JObj user_data) /\
    user_data !! "vendor" = Some (JObj vendor) /\
    vendor !! "id" = Some vendor_id /\
    truthy vendor_id = true.

(** The image service answered 2xx with JSON from which lines 105-106
    collect exactly these ids. *)
Definition images_are (w : world) (photo_links : list string) (image_ids : list json)
    : Prop :=
  exists r image_json,
    w (image_request photo_links) = Replied r /\
    is_success r = true /\
    body_json r = Some image_json /\
    extract_image_ids image_json = inr image_ids.

(** The description service answered 2xx with a JSON object holding this
    value under [data]. *)
Definition description_data_is (w : world) (description : string) (data : json) : Prop :=
  exists r prep_json,
    w (description_request description) = Replied r /\
    is_success r = true /\
    body_json r = Some (JObj prep_json) /\
    prep_json !! "data" = Some data.


(** The two calls of the media stage. *)
Inductive media_call : Type := ImageUpload | VideoCheck.

Definition media_url (c : media_call) : string :=
  match c with
  | ImageUpload => SMART_UPLOADER_URL
  | VideoCheck => VIDEO_CHECK_URL
  end.

(** The handler gets to call [raise_for_status] on the reply [r] of the
    media call [c]: no task failed at transport level and, for the video
    check, the image reply went through with at least one id. *)
Definition status_checked (w : world) (photo_links : list string)
    (video_link : option string) (c : media_call) (r : reply) : Prop :=
  match c with
  | ImageUpload =>
      w (image_request photo_links) = Replied r /\
      video_outcome w video_link <> Some Failed
  | VideoCheck =>
      video_outcome w video_link = Some (Replied r) /\
      exists first others, images_are w photo_links (first :: others)
  end.

(** [emits cs m]: whatever was issued before, [m] issues exactly the calls
    [cs], and its result does not depend on what was issued before. *)
Definition emits {A} (cs : list request) (m : M A) : Prop :=
  forall tr, m tr = ((tr ++ cs)%list, (m []).2).

(* ===================================================================== *)
(** ** Concrete services and payloads *)
(* ===================================================================== *)

(** Services given by a function on the requests that can be sent. *)
Definition served_sent (f : request -> outcome) (rq : request) (r : reply) :
  (if sendable rq then f rq else Failed) = Replied r -> sendable rq = true.
Proof. destruct (sendable rq); [reflexivity | discriminate]. Defined.

Definition serve (f : request -> outcome) : world :=
  World (fun rq => if sendable rq then f rq else Failed) (served_sent f).

(** Services that answer by endpoint, whatever the request carries. *)
Definition scripted (user_info image video description submission : outcome) : world :=
  serve (fun rq =>
    if String.eqb (req_url rq) BASALAM_USER_INFO_URL then user_info
    else if String.eqb (req_url rq) SMART_UPLOADER_URL then image
    else if String.eqb (req_url rq) VIDEO_CHECK_URL then video
    else if String.eqb (req_url rq) DESCRIPTION_SERVICE_URL then description
    else submission).

Definition ok (j : json) : outcome := Replied (Reply 200 "OK" (Some j)).

Definition status (code : Z) (body : string) : outcome := Replied (Reply code body None).

(** A rendering of vendor ids for the examples: integers in decimal,
    strings as they are. *)
Definition sample_format (v : json) : string :=
  match v with
  | JInt n => pretty n
  | JStr s => s
  | _ => "?"
  end.

Definition sample_payload (video : option string) : TelegramWebhookPayload :=
  {| raw_data_json :=
       {| raw_message := {| message := "shirt" |};
          photos := ["https://cdn.example/a.jpg"; "https://cdn.example/b.jpg"];
          stock := 5;
          video := video |};
     access_token := "token" |}.

Definition sample_video : option string := Some "https://cdn.example/v.mp4".

Definition vendor_42 : outcome :=
  ok (JObj {[ "vendor" := JObj {[ "id" := JInt 42 ]} ]}).

Definition images_101_102 : outcome :=
  ok (JObj {[ "processed_images" :=
                JArr [JObj {[ "id" := JInt 101 ]}; JObj {[ "id" := JInt 102 ]}] ]}).

Definition no_images : outcome := ok (JObj {[ "processed_images" := JArr [] ]}).

Definition shirt_data : gmap string json := {[ "title" := JStr "shirt" ]}.

Definition description_of (data : json) : outcome := ok (JObj {[ "data" := data ]}).

Definition created : outcome := ok (JObj {[ "id" := JInt 7 ]}).


Definition images_second_with_id : outcome :=
  ok (JObj {[ "processed_images" :=
                JArr [JObj {[ "url" := JStr "https://img.example/a" ]};
                      JObj {[ "id" := JInt 7 ]}] ]}).

Definition vendor_0 : outcome :=
  ok (JObj {[ "vendor" := JObj {[ "id" := JInt 0 ]} ]}).



(** The end-to-end scenario: vendor 42, images 101 and 102, no video asked. *)
Definition shirt_world (data : json) : world :=
  scripted vendor_42 images_101_102 Failed (description_of data) created.

(** The same with a video link in the payload and an answer from the
    video checker. *)
Definition video_world (video_answer : outcome) (data : json) : world :=
  scripted vendor_42 images_101_102 video_answer (description_of data) created.

(* ===================================================================== *)
(** ** Further vocabulary: call kinds, failures, written fields *)
(* ===================================================================== *)

Definition is_user_info_call (rq : request) : bool :=
  String.eqb (req_url rq) BASALAM_USER_INFO_URL.

Definition is_media_call (rq : request) : bool :=
  String.eqb (req_url rq) SMART_UPLOADER_URL || String.eqb (req_url rq) VIDEO_CHECK_URL.

(** Failures the handler's own code rules out: an [HTTPStatusError]
    leaving it, an [HTTPException] with a status other than the five it
    uses, an [IndexError] or [KeyError] from its list and dictionary
    accesses. *)
Definition ruled_out (e : exn) : bool :=
  match e with
  | HTTPException s _ =>
      negb ((s =? 400) || (s =? 401) || (s =? 500) || (s =? 502) || (s =? 504))
  | HTTPStatusError _ => true
  | Builtin KeyError | Builtin IndexError => true
  | TransportError | Builtin _ => false
  end.

(** The request as a one-element list when the client can send it, no
    request otherwise. *)
Definition sent (rq : request) : list request :=
  if sendable rq then [rq] else [].

(** The keys step 4 may write. *)
Definition written_keys : list string :=
  ["photo"; "photos"; "video"; "vendor_id"; "preparation_days"; "stock";
   "unit_type"; "unit_quantity"].

(** JSON values that are neither iterable nor containers. *)
Definition is_scalar (v : json) : bool :=
  match v with
  | JNull | JBool _ | JInt _ | JFloat _ => true
  | JStr _ | JArr _ | JObj _ => false
  end.

(** The media task [c] is the first, in creation order, that failed at
    transport level. *)
Definition first_failed (w : world) (photo_links : list string)
    (video_link : option string) (c : media_call) : Prop :=
  match c with
  | ImageUpload => w (image_request photo_links) = Failed
  | VideoCheck =>
      (exists r, w (image_request photo_links) = Replied r) /\
      video_outcome w video_link = Some Failed
  end.


Definition data_with_infinity : gmap string json :=
  <[ "weight" := JFloat infinity ]> shirt_data.

(** The two bytes of a Latin small e with acute accent in UTF-8, after an
    ASCII letter: an access token the client cannot put in a header. *)
Definition accented_token : string :=
  "t" +:+ String (Ascii.ascii_of_nat 195) (String (Ascii.ascii_of_nat 169) "").

Definition payload_with_token (tok : string) : TelegramWebhookPayload :=
  {| raw_data_json := raw_data_json (sample_payload None); access_token := tok |}.
(* ===================================================================== *)
(** ** How the stages use the client *)
(* ===================================================================== *)

Lemma emits_ret {A} (a : A) : emits [] (ret a).
Proof. intros tr. unfold ret. by rewrite app_nil_r. Qed.

Lemma emits_raise {A} (e : exn) : emits [] (@raise A e).
Proof. intros tr. unfold raise. by rewrite app_nil_r. Qed.

Lemma emits_py {A} (r : Py.res A) : emits [] (py r).
Proof. destruct r; [apply emits_raise | apply emits_ret]. Qed.

Lemma emits_bind {A B} cs (m : M A) (k : A -> M B) :
  emits cs m -> (forall a, emits [] (k a)) -> emits cs (bind m k).
Proof.
  intros Hm Hk tr. unfold bind.
  rewrite (Hm tr). destruct (m []) as [c [e|a]]; cbn [snd]; [done|].
  rewrite (Hk a (tr ++ cs)%list), (Hk a c). by rewrite app_nil_r.
Qed.

Lemma bind_emits {A B} cs (m : M A) (k : A -> M B) tr :
  emits cs m ->
  bind m k tr =
  match (m []).2 with
  | inl e => ((tr ++ cs)%list, inl e)
  | inr a => k a (tr ++ cs)%list
  end.
Proof. intros Hm. unfold bind. rewrite (Hm tr). by destruct (m []).2. Qed.

Lemma emits_try {A} cs (body : M A) (handler : response -> M A) :
  emits cs body -> (forall e, emits [] (handler e)) -> emits cs (try_except body handler).
Proof.
  intros Hm Hh tr. unfold try_except.
  rewrite (Hm tr). destruct (body []) as [c [e|a]]; cbn [snd]; [|done].
  destruct e as [| e | |]; try done.
  rewrite (Hh e (tr ++ cs)%list), (Hh e c). by rewrite app_nil_r.
Qed.

Lemma emits_raise_for_status r : emits [] (raise_for_status r).
Proof. unfold raise_for_status. destruct (is_success _); [apply emits_ret | apply emits_raise]. Qed.

Lemma emits_response_json r : emits [] (response_json r).
Proof. unfold response_json. destruct (body_json _); [apply emits_ret | apply emits_raise]. Qed.

Lemma emits_as_response g : emits [] (as_response g).
Proof. destruct g; [apply emits_ret | apply emits_raise]. Qed.

Section Pipeline.

Variable py_format : json -> string.
Variable w : world.

Lemma sendable_encode rq : sendable rq = true -> encode_request rq = inr tt.
Proof. unfold sendable. by destruct (encode_request rq) as [e|[]]. Qed.

Lemma encode_sendable rq u : encode_request rq = inr u -> sendable rq = true.
Proof. unfold sendable. by intros ->. Qed.

Lemma answered_encode rq r : w rq = Replied r -> encode_request rq = inr tt.
Proof. intros H. by apply sendable_encode, (answer_sent w rq r). Qed.

Lemma sendable_image_request links : sendable (image_request links) = true.
Proof.
  unfold sendable, encode_request, image_request.
  cbn [req_headers req_json headers_encodable forallb from_option json_encodable].
  rewrite map_fold_singleton.
  assert (H : forallb json_encodable (JStr <$> links) = true).
  { induction links as [|l links IH]; [done | exact IH]. }
  cbn [json_encodable]. by rewrite H.
Qed.

Lemma sendable_video_request link : sendable (video_request link) = true.
Proof. reflexivity. Qed.

Lemma sendable_description_request d : sendable (description_request d) = true.
Proof. reflexivity. Qed.

Lemma sendable_media links vl :
  Forall (fun rq => sendable rq = true) (media_requests links vl).
Proof.
  unfold media_requests. destruct (url_truthy vl); repeat constructor;
    try apply sendable_image_request.
Qed.

(** With the bearer header of a user-info request that could be sent, a
    submission is refused only for its body. *)
Lemma encode_submission url tok draft :
  encode_request (user_info_request tok) = inr tt ->
  encode_request (submission_request url tok draft) =
  if json_encodable draft then inr tt else inl ValueError.
Proof.
  unfold encode_request.
  cbn [req_headers req_json user_info_request submission_request from_option].
  by destruct (headers_encodable (auth_headers tok)).
Qed.

Lemma emits_send rq : emits [rq] (send w rq).
Proof. by intros tr. Qed.

Lemma emits_await rq : emits (sent rq) (await w rq).
Proof.
  unfold await, sent, sendable.
  destruct (encode_request rq) as [e|[]]; intros tr.
  - cbv [bind py raise]. by rewrite app_nil_r.
  - cbv [bind py ret send]. by destruct (w rq).
Qed.

Lemma gather_eq tasks tr :
  Forall (fun rq => sendable rq = true) tasks ->
  gather w tasks tr =
  ((tr ++ tasks)%list,
   inr ((fun rq => match w rq with
                   | Replied r => Got (Response rq r)
                   | Failed => Exc
                   end) <$> tasks)).
Proof.
  intros Hall. revert tr. induction Hall as [|rq rest Hrq _ IH]; intros tr.
  - cbn. by rewrite app_nil_r.
  - cbn [gather]. rewrite (sendable_encode _ Hrq).
    cbv [bind send ret]. rewrite IH.
    by rewrite <- app_assoc.
Qed.

Lemma emits_gather tasks :
  Forall (fun rq => sendable rq = true) tasks -> emits tasks (gather w tasks).
Proof. intros Hall tr. by rewrite !gather_eq. Qed.

Lemma emits_check_exceptions task_urls i responses :
  emits [] (check_exceptions task_urls i responses).
Proof.
  revert i. induction responses as [|[r|] rest IH]; intros i; cbn [check_exceptions].
  - apply emits_ret.
  - apply IH.
  - apply emits_bind; [apply emits_py | intros; apply emits_raise].
Qed.

Ltac silent :=
  repeat first
    [ apply emits_ret | apply emits_raise | apply emits_py
    | apply emits_raise_for_status | apply emits_response_json
    | apply emits_as_response | apply emits_check_exceptions
    | apply emits_bind; [| intros ?]
    | match goal with
      | |- emits [] (if ?b then _ else _) => destruct b
      | |- emits [] (match ?x with _ => _ end) => destruct x
      end ].

Lemma emits_resolve_vendor tok :
  emits (sent (user_info_request tok)) (resolve_vendor py_format w tok).
Proof.
  unfold resolve_vendor. apply emits_try; [|intros; silent].
  cbv zeta. apply emits_bind; [apply emits_await | intros; silent].
Qed.

Lemma emits_process_media links vl :
  emits (media_requests links vl) (process_media w links vl).
Proof.
  pose proof (sendable_media links vl) as Hall.
  unfold process_media. unfold media_requests in *.
  apply emits_try; [|intros; silent].
  cbv zeta. apply emits_bind.
  - destruct (url_truthy vl); by apply emits_gather.
  - intros; silent.
Qed.

Lemma emits_inject_media p ids vid vendor stock :
  emits [] (inject_media p ids vid vendor stock).
Proof. unfold inject_media. silent. Qed.

Lemma emits_prepare_payload d ids vid vendor stock :
  emits [description_request d] (prepare_payload w d ids vid vendor stock).
Proof.
  unfold prepare_payload. apply emits_try; [|intros; silent].
  cbv zeta. apply emits_bind; [apply (emits_await (description_request d)) | intros].
  apply emits_bind; [silent | intros].
  apply emits_bind; [silent | intros].
  apply emits_bind; [silent | intros].
  destruct (negb _); [apply emits_raise | apply emits_inject_media].
Qed.

Lemma emits_submit url tok draft :
  emits (sent (submission_request url tok draft)) (submit w url tok draft).
Proof.
  unfold submit. apply emits_try; [|intros; silent].
  cbv zeta. apply emits_bind; [apply emits_await | intros; silent].
Qed.

(** The handler stage by stage: which calls were made and what came out,
    in terms of what each stage yields on its own. *)
Lemma run_eq payload :
  let rd := raw_data_json payload in
  let tok := access_token payload in
  let media := media_requests (photos rd) (video_link_of payload) in
  run py_format w payload =
  match (resolve_vendor py_format w tok []).2 with
  | inl e => (sent (user_info_request tok), inl e)
  | inr (vendor_id, url) =>
      match (process_media w (photos rd) (video_link_of payload) []).2 with
      | inl e => ((sent (user_info_request tok) ++ media)%list, inl e)
      | inr (image_ids, video_id) =>
          match (prepare_payload w (message (raw_message rd)) image_ids video_id
                   vendor_id (stock rd) []).2 with
          | inl e =>
              (((sent (user_info_request tok) ++ media) ++
                  [description_request (message (raw_message rd))])%list,
               inl e)
          | inr draft =>
              ((((sent (user_info_request tok) ++ media) ++
                   [description_request (message (raw_message rd))]) ++
                  sent (submission_request url tok draft))%list,
               (submit w url tok draft []).2)
          end
      end
  end.
Proof.
  cbv zeta. unfold run, create_product_from_webhook. cbv zeta.
  fold (video_link_of payload).
  rewrite (bind_emits _ _ _ _ (emits_resolve_vendor _)).
  destruct (resolve_vendor _ _ _ []).2 as [e|[vendor_id url]]; [done|].
  rewrite (bind_emits _ _ _ _ (emits_process_media _ _)).
  destruct (process_media _ _ _ []).2 as [e|[image_ids video_id]]; [done|].
  rewrite (bind_emits _ _ _ _ (emits_prepare_payload _ _ _ _ _)).
  destruct (prepare_payload _ _ _ _ _ _ []).2 as [e|draft]; [done|].
  by rewrite (emits_submit _ _ _ _).
Qed.

(** *** Each stage against its summary *)

Lemma resolve_vendor_result tok :
  (resolve_vendor py_format w tok []).2 =
  match encode_request (user_info_request tok) with
  | inl e => inl (Builtin e)
  | inr _ => vendor_result py_format (w (user_info_request tok))
  end.
Proof.
  unfold resolve_vendor, vendor_result.
  cbv [try_except bind await send ret raise raise_for_status response_json py
       client_get reply_of].
  fold (auth_headers tok). fold (user_info_request tok).
  destruct (encode_request (user_info_request tok)) as [e|[]]; [done|].
  destruct (w (user_info_request tok)) as [r|]; [|done].
  destruct (is_success r); [|done].
  destruct (body_json r) as [j|]; [|done].
  destruct (get_default j "vendor" (JObj ∅)) as [e|vendor]; [done|].
  destruct (get vendor "id") as [e|vendor_id]; [done|].
  by destruct (truthy vendor_id).
Qed.

Lemma process_media_result links vl :
  (process_media w links vl []).2 =
  media_result (w (image_request links)) (video_outcome w vl).
Proof.
  pose proof (sendable_media links vl) as Hall. unfold media_requests in Hall.
  unfold process_media, video_outcome. cbv zeta.
  unfold try_except, client_post.
  fold (image_request links). fold (video_request (default "" vl)).
  destruct (url_truthy vl).
  - cbn [app]. rewrite (bind_emits _ _ _ _ (emits_gather _ Hall)).
    rewrite (gather_eq _ _ Hall). cbn [snd]. clear Hall.
    cbn [app fmap list_fmap].
    destruct (w (image_request links)) as [ir|]; [|done].
    destruct (w (video_request _)) as [vr|]; [|done].
    cbn [check_exceptions media_result].
    unfold image_result, video_result, extract_image_ids.
    cbv [bind ret raise py index lookup list_lookup as_response raise_for_status
         response_json reply_of request_of].
    destruct (is_success ir); [|done].
    destruct (body_json ir) as [j|]; [|done].
    destruct (get_default j _ _) as [e|pi]; [done|].
    destruct (iter pi) as [e|imgs]; [done|].
    destruct (collect_ids imgs) as [e|[|first others]]; [done|done|].
    destruct (is_success vr); [|done].
    destruct (body_json vr) as [vj|]; [|done].
    destruct (get vj "is_forbidden") as [e|f]; [done|].
    destruct (truthy f); [done|].
    by destruct (get vj "id").
  - rewrite (bind_emits _ _ _ _ (emits_gather _ Hall)).
    rewrite (gather_eq _ _ Hall). cbn [snd]. clear Hall.
    cbn [app fmap list_fmap].
    destruct (w (image_request links)) as [ir|]; [|done].
    cbn [check_exceptions media_result].
    unfold image_result, extract_image_ids.
    cbv [bind ret raise py index lookup list_lookup as_response raise_for_status
         response_json reply_of request_of].
    destruct (is_success ir); [|done].
    destruct (body_json ir) as [j|]; [|done].
    destruct (get_default j _ _) as [e|pi]; [done|].
    destruct (iter pi) as [e|imgs]; [done|].
    by destruct (collect_ids imgs) as [e|[|first others]].
Qed.

Lemma inject_media_result p ids vid vendor stock tr :
  inject_media p ids vid vendor stock tr = (tr, inject_result p ids vid vendor stock).
Proof.
  unfold inject_media, inject_result, final_draft, with_video, with_photos.
  destruct p; destruct ids; destruct (truthy vid); reflexivity.
Qed.

Lemma prepare_payload_result d ids vid vendor stock :
  (prepare_payload w d ids vid vendor stock []).2 =
  draft_result (w (description_request d)) ids vid vendor stock.
Proof.
  unfold prepare_payload, draft_result. cbv zeta.
  cbv [try_except bind await send ret raise raise_for_status response_json py
       client_post reply_of].
  fold (description_request d).
  rewrite (sendable_encode _ (sendable_description_request d)).
  destruct (w (description_request d)) as [r|]; [|done].
  destruct (is_success r); [|done].
  destruct (body_json r) as [j|]; [|done].
  destruct (get j "data") as [e|data]; [done|].
  destruct (truthy data); [|done].
  cbn [negb]. rewrite inject_media_result.
  unfold inject_result. by destruct data.
Qed.

Lemma submit_result_eq url tok draft :
  (submit w url tok draft []).2 =
  match encode_request (submission_request url tok draft) with
  | inl e => inl (Builtin e)
  | inr _ => submit_result (w (submission_request url tok draft)) draft
  end.
Proof.
  unfold submit, submit_result, success_body. cbv zeta.
  cbv [try_except bind await send ret raise raise_for_status response_json py
       client_post reply_of].
  fold (auth_headers tok). fold (submission_request url tok draft).
  destruct (encode_request (submission_request url tok draft)) as [e|[]]; [done|].
  destruct (w (submission_request url tok draft)) as [r|]; [|done].
  destruct (is_success r); [|done].
  by destruct (body_json r).
Qed.

Lemma vendor_result_answered o v url :
  vendor_result py_format o = inr (v, url) -> exists r, o = Replied r.
Proof. unfold vendor_result. destruct o as [r|]; [by exists r | done]. Qed.

(** The handler as a whole, in terms of what the services answered. *)
Lemma run_spec payload :
  let rd := raw_data_json payload in
  let tok := access_token payload in
  let d := message (raw_message rd) in
  let vl := video_link_of payload in
  let media := media_requests (photos rd) vl in
  run py_format w payload =
  match vendor_result py_format (w (user_info_request tok)) with
  | inl e =>
      match encode_request (user_info_request tok) with
      | inl e' => ([], inl (Builtin e'))
      | inr _ => ([user_info_request tok], inl e)
      end
  | inr (vendor_id, url) =>
      match media_result (w (image_request (photos rd))) (video_outcome w vl) with
      | inl e => (user_info_request tok :: media, inl e)
      | inr (image_ids, video_id) =>
          match draft_result (w (description_request d)) image_ids video_id
                  vendor_id (stock rd) with
          | inl e => ((user_info_request tok :: media) ++ [description_request d], inl e)
          | inr draft =>
              if json_encodable draft then
                ((user_info_request tok :: media) ++
                   [description_request d; submission_request url tok draft],
                 submit_result (w (submission_request url tok draft)) draft)
              else
                ((user_info_request tok :: media) ++ [description_request d],
                 inl (Builtin ValueError))
          end
      end
  end.
Proof.
  cbv zeta. rewrite run_eq. cbv zeta.
  rewrite resolve_vendor_result, process_media_result.
  unfold sent at 1 2 3 4. unfold sendable at 1 2 3 4.
  destruct (encode_request (user_info_request _)) as [e'|[]] eqn:Hui.
  { destruct (vendor_result _ _) as [e|[vendor_id url]] eqn:Hv; [done|].
    apply vendor_result_answered in Hv as [r Hr].
    apply answered_encode in Hr. congruence. }
  destruct (vendor_result _ _) as [e|[vendor_id url]]; [done|].
  destruct (media_result _ _) as [e|[image_ids video_id]]; [done|].
  rewrite prepare_payload_result.
  destruct (draft_result _ _ _ _ _) as [e|draft]; [done|].
  rewrite submit_result_eq. unfold sent, sendable.
  rewrite (encode_submission _ _ _ Hui).
  destruct (json_encodable draft); [|by rewrite app_nil_r].
  cbn [app]. by rewrite <- app_assoc.
Qed.
(** *** Situations and stage summaries *)

Lemma vendor_is_result tok v :
  vendor_is w tok v ->
  vendor_result py_format (w (user_info_request tok)) =
  inr (v, BASALAM_PRODUCTS_URL_TEMPLATE_format py_format v).
Proof.
  intros (r & um & vm & Hw & Hs & Hj & Hv & Hid & Ht).
  unfold vendor_result. rewrite Hw, Hs, Hj.
  unfold get, get_default. by rewrite Hv, Hid, Ht.
Qed.

Lemma vendor_result_inv o v url :
  vendor_result py_format o = inr (v, url) ->
  truthy v = true /\ url = BASALAM_PRODUCTS_URL_TEMPLATE_format py_format v.
Proof.
  unfold vendor_result. destruct o as [r|]; [|done].
  destruct (is_success r); [|done].
  destruct (body_json r) as [j|]; [|done].
  destruct (get_default j _ _) as [e|vendor]; [done|].
  destruct (get vendor "id") as [e|vendor_id]; [done|].
  destruct (truthy vendor_id) eqn:Ht; [|done].
  intros [= <- <-]. done.
Qed.

Lemma images_are_result links ids :
  images_are w links ids ->
  exists r, w (image_request links) = Replied r /\
    image_result r =
    match ids with
    | [] => inl (HTTPException 400 "Uploader service returned no valid image IDs.")
    | _ :: _ => inr ids
    end.
Proof.
  intros (r & j & Hw & Hs & Hj & Hids). exists r. split; [done|].
  unfold image_result. rewrite Hs, Hj, Hids. by destruct ids.
Qed.

Lemma image_result_inv r ids :
  image_result r = inr ids ->
  exists j first others,
    is_success r = true /\ body_json r = Some j /\
    extract_image_ids j = inr ids /\ ids = first :: others.
Proof.
  unfold image_result. destruct (is_success r); [|done].
  destruct (body_json r) as [j|]; [|done].
  destruct (extract_image_ids j) as [e|[|first others]] eqn:Hids; [done|done|].
  intros [= <-]. exists j, first, others. by repeat split.
Qed.

Lemma media_result_inv links vl ids vid :
  media_result (w (image_request links)) (video_outcome w vl) = inr (ids, vid) ->
  (exists first others, ids = first :: others /\ images_are w links ids) /\
  (video_outcome w vl = None -> vid = JNull).
Proof.
  unfold media_result.
  destruct (w (image_request links)) as [ir|] eqn:Hw; [|done].
  destruct (video_outcome w vl) as [[vr|]|].
  - destruct (image_result ir) as [e|ids'] eqn:Hi; [done|].
    destruct (video_result vr) as [e|vid']; [done|].
    intros [= <- <-]. split; [|done].
    apply image_result_inv in Hi as (j & first & others & ? & ? & ? & ?).
    exists first, others. split; [done|]. exists ir, j. by repeat split.
  - done.
  - destruct (image_result ir) as [e|ids'] eqn:Hi; [done|].
    intros [= <- <-]. split; [|done].
    apply image_result_inv in Hi as (j & first & others & ? & ? & ? & ?).
    exists first, others. split; [done|]. exists ir, j. by repeat split.
Qed.



Lemma draft_result_inv d ids vid vendor stock draft :
  draft_result (w (description_request d)) ids vid vendor stock = inr draft ->
  exists data, description_data_is w d (JObj data) /\ data <> ∅ /\
    draft = JObj (final_draft data ids vid vendor stock).
Proof.
  unfold draft_result.
  destruct (w (description_request d)) as [r|] eqn:Hw; [|done].
  destruct (is_success r) eqn:Hs; [|done].
  destruct (body_json r) as [j|] eqn:Hj; [|done].
  destruct j as [| | | | | |pm]; try done.
  unfold get, get_default.
  destruct (pm !! "data") as [data|] eqn:Hd; [|done].
  destruct (truthy data) eqn:Ht; [|done].
  destruct data as [| | | | | |data]; try done.
  intros [= <-]. exists data. split; [exists r, pm; by repeat split|]. split; [|done].
  intros ->. cbn in Ht. by rewrite bool_decide_eq_true_2 in Ht.
Qed.

(** *** The fields of the final draft *)

Lemma final_draft_photo data first others vid vendor stock :
  final_draft data (first :: others) vid vendor stock !! "photo" = Some first.
Proof.
  unfold final_draft, with_video, with_photos.
  do 5 (rewrite lookup_insert_ne by done).
  destruct (truthy vid).
  - do 2 (rewrite lookup_insert_ne by done). by rewrite lookup_insert_eq.
  - rewrite lookup_insert_ne by done. by rewrite lookup_insert_eq.
Qed.

Lemma final_draft_photos data first others vid vendor stock :
  final_draft data (first :: others) vid vendor stock !! "photos" = Some (JArr others).
Proof.
  unfold final_draft, with_video, with_photos.
  do 5 (rewrite lookup_insert_ne by done).
  destruct (truthy vid).
  - rewrite lookup_insert_ne by done. by rewrite lookup_insert_eq.
  - by rewrite lookup_insert_eq.
Qed.



(** *** Which calls reach the product endpoint *)

Lemma prefix_app (p s : string) : String.prefix p (p +:+ s) = true.
Proof.
  induction p as [|c p IH].
  - by destruct s.
  - change (String c p +:+ s) with (String c (p +:+ s)).
    cbn [String.prefix]. by destruct (Ascii.ascii_dec c c).
Qed.

Lemma is_submission_call_submission v tok draft :
  is_submission_call
    (submission_request (BASALAM_PRODUCTS_URL_TEMPLATE_format py_format v) tok draft) = true.
Proof. apply prefix_app. Qed.

Lemma submitted_drafts_app calls calls' :
  submitted_drafts (calls ++ calls') = (submitted_drafts calls ++ submitted_drafts calls')%list.
Proof. unfold submitted_drafts. by rewrite List.filter_app, omap_app. Qed.

Lemma submitted_drafts_user_info tok : submitted_drafts [user_info_request tok] = [].
Proof. reflexivity. Qed.

Lemma submitted_drafts_media links vl : submitted_drafts (media_requests links vl) = [].
Proof. unfold media_requests. by destruct (url_truthy vl). Qed.

Lemma submitted_drafts_description d : submitted_drafts [description_request d] = [].
Proof. reflexivity. Qed.

Lemma submitted_drafts_submission v tok draft :
  submitted_drafts
    [submission_request (BASALAM_PRODUCTS_URL_TEMPLATE_format py_format v) tok draft] = [draft].
Proof.
  unfold submitted_drafts. cbn [List.filter].
  by rewrite is_submission_call_submission.
Qed.

(** The drafts a request submits: none unless every stage before the
    submission went through, and then exactly the draft of step 4. *)
Lemma submitted_drafts_run payload :
  let rd := raw_data_json payload in
  let vl := video_link_of payload in
  submitted_drafts (run py_format w payload).1 =
  match vendor_result py_format (w (user_info_request (access_token payload))) with
  | inl _ => []
  | inr (vendor_id, _) =>
      match media_result (w (image_request (photos rd))) (video_outcome w vl) with
      | inl _ => []
      | inr (image_ids, video_id) =>
          match draft_result (w (description_request (message (raw_message rd))))
                  image_ids video_id vendor_id (stock rd) with
          | inl _ => []
          | inr draft => if json_encodable draft then [draft] else []
          end
      end
  end.
Proof.
  cbv zeta. rewrite run_spec. cbv zeta.
  destruct (vendor_result _ _) as [e|[vendor_id url]] eqn:Hv;
    [by destruct (encode_request _)|].
  apply vendor_result_inv in Hv as [_ ->].
  destruct (media_result _ _) as [e|[image_ids video_id]].
  { cbn [fst]. change (?x :: ?l) with ([x] ++ l)%list.
    by rewrite submitted_drafts_app, submitted_drafts_media. }
  destruct (draft_result _ _ _ _ _) as [e|draft]; cbn [fst].
  - change (?x :: ?l) with ([x] ++ l)%list.
    rewrite !submitted_drafts_app, submitted_drafts_media. done.
  - destruct (json_encodable draft); cbn [fst].
    + change (?x :: media_requests ?a ?b) with ([x] ++ media_requests a b)%list.
      change [?a; ?b] with ([a] ++ [b])%list.
      rewrite !submitted_drafts_app, submitted_drafts_media, submitted_drafts_submission.
      done.
    + change (?x :: ?l) with ([x] ++ l)%list.
      rewrite !submitted_drafts_app, submitted_drafts_media. done.
Qed.

(** *** The id filter *)

Lemma collect_ids_omap imgs ids :
  collect_ids imgs = inr ids -> ids = omap id_of imgs.
Proof.
  revert ids. induction imgs as [|img rest IH]; intros ids; cbn [collect_ids omap list_omap].
  - by intros [= <-].
  - destruct img as [| b | n | f | s | l | o]; cbn [contains getitem id_of]; try done.
    + destruct (str_contains "id" s); [done | apply IH].
    + destruct (existsb (is_str "id") l); [done | apply IH].
    + destruct (o !! "id") as [x|]; cbn [bool_decide]; [|apply IH].
      rewrite bool_decide_eq_true_2 by eauto.
      destruct (collect_ids rest) as [e|xs]; [done|].
      intros [= <-]. by rewrite (IH xs).
Qed.

Lemma extract_image_ids_array (im : gmap string json) imgs :
  im !! "processed_images" = Some (JArr imgs) ->
  extract_image_ids (JObj im) = collect_ids imgs.
Proof. intros H. unfold extract_image_ids, get_default. by rewrite H. Qed.

(** *** Facts about the payload and the calls *)

Lemma video_link_of_None p : video (raw_data_json p) = None -> video_link_of p = None.
Proof. unfold video_link_of. by intros ->. Qed.

(** A run that submits a draft went through every earlier stage. *)
Lemma submitted_draft_inv p draft :
  draft ∈ submitted_drafts (run py_format w p).1 ->
  exists vendor_id first others video_id data,
    truthy vendor_id = true /\
    images_are w (photos (raw_data_json p)) (first :: others) /\
    description_data_is w (message (raw_message (raw_data_json p))) (JObj data) /\
    data <> ∅ /\
    draft = JObj (final_draft data (first :: others) video_id vendor_id
                    (stock (raw_data_json p))).
Proof.
  rewrite submitted_drafts_run. cbv zeta.
  destruct (vendor_result _ _) as [e|[vendor_id url]] eqn:Hv; [by intros ?%elem_of_nil|].
  destruct (media_result _ _) as [e|[ids vid]] eqn:Hm; [by intros ?%elem_of_nil|].
  destruct (draft_result _ _ _ _ _) as [e|draft'] eqn:Hd; [by intros ?%elem_of_nil|].
  destruct (json_encodable draft'); [|by intros ?%elem_of_nil].
  intros ->%list_elem_of_singleton.
  apply vendor_result_inv in Hv as [Ht _].
  apply media_result_inv in Hm as [(first & others & -> & Himg) _].
  apply draft_result_inv in Hd as (data & Hdesc & Hne & ->).
  exists vendor_id, first, others, vid, data. by repeat split.
Qed.

Lemma images_are_inj links ids r j :
  images_are w links ids ->
  w (image_request links) = Replied r -> body_json r = Some j ->
  extract_image_ids j = inr ids.
Proof.
  intros (r' & j' & Hw & _ & Hj & Hids) Hw' Hj'.
  rewrite Hw in Hw'. injection Hw' as <-. rewrite Hj in Hj'. by injection Hj' as <-.
Qed.

(** *** The ways a run can go *)

Lemma run_cases p :
  let rd := raw_data_json p in
  let tok := access_token p in
  let d := message (raw_message rd) in
  let vl := video_link_of p in
  let media := media_requests (photos rd) vl in
  (exists e,
     encode_request (user_info_request tok) = inl e /\
     run py_format w p = ([], inl (Builtin e))) \/
  (exists e,
     vendor_result py_format (w (user_info_request tok)) = inl e /\
     run py_format w p = ([user_info_request tok], inl e)) \/
  (exists v e,
     vendor_result py_format (w (user_info_request tok)) =
       inr (v, BASALAM_PRODUCTS_URL_TEMPLATE_format py_format v) /\
     media_result (w (image_request (photos rd))) (video_outcome w vl) = inl e /\
     run py_format w p = (user_info_request tok :: media, inl e)) \/
  (exists v ids vid e,
     vendor_result py_format (w (user_info_request tok)) =
       inr (v, BASALAM_PRODUCTS_URL_TEMPLATE_format py_format v) /\
     media_result (w (image_request (photos rd))) (video_outcome w vl) = inr (ids, vid) /\
     draft_result (w (description_request d)) ids vid v (stock rd) = inl e /\
     run py_format w p =
       ((user_info_request tok :: media) ++ [description_request d], inl e)) \/
  (exists v ids vid draft,
     vendor_result py_format (w (user_info_request tok)) =
       inr (v, BASALAM_PRODUCTS_URL_TEMPLATE_format py_format v) /\
     media_result (w (image_request (photos rd))) (video_outcome w vl) = inr (ids, vid) /\
     draft_result (w (description_request d)) ids vid v (stock rd) = inr draft /\
     json_encodable draft = false /\
     run py_format w p =
       ((user_info_request tok :: media) ++ [description_request d],
        inl (Builtin ValueError))) \/
  (exists v ids vid draft,
     vendor_result py_format (w (user_info_request tok)) =
       inr (v, BASALAM_PRODUCTS_URL_TEMPLATE_format py_format v) /\
     media_result (w (image_request (photos rd))) (video_outcome w vl) = inr (ids, vid) /\
     draft_result (w (description_request d)) ids vid v (stock rd) = inr draft /\
     json_encodable draft = true /\
     run py_format w p =
       ((user_info_request tok :: media) ++
          [description_request d;
           submission_request (BASALAM_PRODUCTS_URL_TEMPLATE_format py_format v) tok draft],
        submit_result
          (w (submission_request (BASALAM_PRODUCTS_URL_TEMPLATE_format py_format v)
                tok draft)) draft)).
Proof.
  cbv zeta. rewrite run_spec. cbv zeta.
  destruct (vendor_result _ _) as [e|[v url]] eqn:Hv.
  { destruct (encode_request _) as [e'|[]]; [left; by exists e' | right; left; by exists e]. }
  do 2 right. destruct (vendor_result_inv _ _ _ Hv) as [_ ->].
  destruct (media_result _ _) as [e|[ids vid]] eqn:Hm; [left; by exists v, e|].
  right. destruct (draft_result _ _ _ _ _) as [e|draft] eqn:Hd.
  - left. by exists v, ids, vid, e.
  - right. destruct (json_encodable draft) eqn:Hfin.
    + right. by exists v, ids, vid, draft.
    + left. by exists v, ids, vid, draft.
Qed.

Lemma vendor_result_is tok v url :
  vendor_result py_format (w (user_info_request tok)) = inr (v, url) ->
  vendor_is w tok v.
Proof.
  unfold vendor_result.
  destruct (w (user_info_request tok)) as [r|] eqn:Hw; [|done].
  destruct (is_success r) eqn:Hs; [|done].
  destruct (body_json r) as [j|] eqn:Hj; [|done].
  destruct j as [| | | | | |um]; try done.
  unfold get, get_default.
  destruct (um !! "vendor") as [vendor|] eqn:Hvendor; [|done].
  destruct vendor as [| | | | | |vm]; try done.
  destruct (vm !! "id") as [x|] eqn:Hid; [|done].
  destruct (truthy x) eqn:Ht; [|done].
  intros [= <- _]. exists r, um, vm. by repeat split.
Qed.

(** *** Which exceptions the stages can end with *)

Lemma collect_ids_error imgs e : collect_ids imgs = inl e -> e = TypeError.
Proof.
  induction imgs as [|img rest IH]; cbn [collect_ids]; [done|].
  destruct img as [| b | n | f | s | l | o]; cbn [contains getitem];
    try (by intros [= <-]).
  - destruct (str_contains "id" s); [by intros [= <-] | apply IH].
  - destruct (existsb (is_str "id") l); [by intros [= <-] | apply IH].
  - destruct (o !! "id") as [x|] eqn:Hx.
    + rewrite bool_decide_eq_true_2 by eauto.
      destruct (collect_ids rest) as [e'|xs]; [|done].
      intros [= <-]. by apply IH.
    + rewrite bool_decide_eq_false_2 by (by intros [? ?]). apply IH.
Qed.

Lemma vendor_result_failure o e :
  vendor_result py_format o = inl e -> ruled_out e = false.
Proof.
  unfold vendor_result. destruct o as [r|]; [|by intros [= <-]].
  destruct (is_success r); [|by intros [= <-]].
  destruct (body_json r) as [j|]; [|by intros [= <-]].
  destruct j; try (by intros [= <-]).
  unfold get, get_default. destruct (m !! "vendor") as [vendor|].
  - destruct vendor; try (by intros [= <-]).
    destruct (m0 !! "id") as [x|]; [|by intros [= <-]].
    destruct (truthy x); [done | by intros [= <-]].
  - cbn. by intros [= <-].
Qed.

Lemma image_result_failure r e :
  image_result r = inl e -> ruled_out e = false.
Proof.
  unfold image_result. destruct (is_success r); [|by intros [= <-]].
  destruct (body_json r) as [j|]; [|by intros [= <-]].
  destruct (extract_image_ids j) as [e'|[|first others]] eqn:He;
    [| by intros [= <-] | done].
  intros [= <-]. unfold extract_image_ids in He.
  destruct j; try (by injection He as <-).
  cbn [get_default] in He.
  destruct (match m !! "processed_images" with Some x => x | None => JArr [] end);
    cbn [iter] in He; try (by injection He as <-);
    by apply collect_ids_error in He as ->.
Qed.

Lemma video_result_failure r e :
  video_result r = inl e -> ruled_out e = false.
Proof.
  unfold video_result. destruct (is_success r); [|by intros [= <-]].
  destruct (body_json r) as [j|]; [|by intros [= <-]].
  destruct j; try (by intros [= <-]).
  unfold get, get_default.
  destruct (truthy _); [done|]. done.
Qed.

Lemma media_result_failure io vo e :
  media_result io vo = inl e -> ruled_out e = false.
Proof.
  unfold media_result. destruct io as [ir|]; [|by intros [= <-]].
  destruct vo as [[vr|]|]; [| by intros [= <-] |].
  - destruct (image_result ir) as [e'|ids] eqn:Hi.
    + intros [= <-]. by apply image_result_failure in Hi.
    + destruct (video_result vr) as [e'|vid] eqn:Hv; [|done].
      intros [= <-]. by apply video_result_failure in Hv.
  - destruct (image_result ir) as [e'|ids] eqn:Hi; [|done].
    intros [= <-]. by apply image_result_failure in Hi.
Qed.

Lemma draft_result_failure o ids vid v stock e :
  draft_result o ids vid v stock = inl e -> ruled_out e = false.
Proof.
  unfold draft_result. destruct o as [r|]; [|by intros [= <-]].
  destruct (is_success r); [|by intros [= <-]].
  destruct (body_json r) as [j|]; [|by intros [= <-]].
  destruct j; try (by intros [= <-]).
  unfold get, get_default.
  destruct (match m !! "data" with Some x => x | None => JNull end) eqn:Hd;
    cbn [truthy inject_result]; try (by intros [= <-]);
    repeat (match goal with |- context [if ?b then _ else _] => destruct b end);
    try done; by intros [= <-].
Qed.

Lemma submit_result_failure o draft e :
  submit_result o draft = inl e -> ruled_out e = false.
Proof.
  unfold submit_result. destruct o as [r|]; [|by intros [= <-]].
  destruct (is_success r); [|by intros [= <-]].
  destruct (body_json r); [done | by intros [= <-]].
Qed.


(** *** A run that gets to the submission step *)



Lemma vendor_is_encode tok v :
  vendor_is w tok v -> encode_request (user_info_request tok) = inr tt.
Proof. intros (r & um & vm & Hw & _). by apply (answered_encode _ r). Qed.




Lemma encode_request_failure rq e :
  encode_request rq = inl e -> ruled_out (Builtin e) = false.
Proof.
  unfold encode_request. destruct (headers_encodable _); [|by intros [= <-]].
  destruct (from_option _ _ _); [done | by intros [= <-]].
Qed.

Lemma is_ascii_app (s t : string) : is_ascii (s +:+ t) = is_ascii s && is_ascii t.
Proof.
  unfold is_ascii. induction s as [|c s IH]; [done|].
  change (String c s +:+ t) with (String c (s +:+ t)).
  cbn [list_ascii_of_string forallb]. rewrite IH. by rewrite andb_assoc.
Qed.
End Pipeline.

(* ===================================================================== *)
(** ** The properties *)
(* ===================================================================== *)

(** *** Vendor lookup *)

(** C4, as amended.  If the user-info call returns a non-2xx status, the
    handler fails with a 401 error whose detail is "Authentication failed: "
    followed by the downstream body, and the user-info call is the only call
    made: no media, description or submission call occurs.  The downstream
    status is not part of the error. *)
Theorem C4_user_info_rejected (py_format : json -> string) (w : world)
    (p : TelegramWebhookPayload) (r : reply) :
  w (user_info_request (access_token p)) = Replied r ->
  is_success r = false ->
  run py_format w p =
  ([user_info_request (access_token p)],
   inl (HTTPException 401 ("Authentication failed: " +:+ text r))).
Proof.
  intros Hw Hs. rewrite run_spec. cbv zeta.
  unfold vendor_result. rewrite Hw, Hs.
  by rewrite (answered_encode _ _ _ Hw).
Qed.

Lemma C4_witness :
  run sample_format (scripted (status 403 "denied") Failed Failed Failed Failed)
    (sample_payload None) =
  ([user_info_request "token"],
   inl (HTTPException 401 "Authentication failed: denied")).
Proof.
  apply (C4_user_info_rejected sample_format
           (scripted (status 403 "denied") Failed Failed Failed Failed)
           (sample_payload None) (Reply 403 "denied" None)); reflexivity.
Defined.

(** C4 as stated fails: user-info answers 403 and 500 with the same body
    give one and the same error, so the error does not carry the downstream
    status. *)
Lemma C4_counterexample :
  (run sample_format (scripted (status 403 "denied") Failed Failed Failed Failed)
     (sample_payload None)).2 =
  inl (HTTPException 401 "Authentication failed: denied") /\
  (run sample_format (scripted (status 500 "denied") Failed Failed Failed Failed)
     (sample_payload None)).2 =
  inl (HTTPException 401 "Authentication failed: denied").
Proof. split; vm_compute; reflexivity. Qed.

(** C9.  When a 2xx user-info answer has a [vendor.id] that is present but
    falsy (0, the empty string, ...), the handler fails with
    400 "User does not have a valid vendor account." after the user-info call
    alone; an answer whose [vendor.id] is absent or null gives the very same
    outcome; and no vendor id that the lookup lets through is falsy, so 0 is
    never accepted. *)
Theorem C9_falsy_vendor_id (py_format : json -> string) (w : world)
    (p : TelegramWebhookPayload) (r : reply) (user_data vendor : gmap string json)
    (vendor_id : json) :
  w (user_info_request (access_token p)) = Replied r ->
  is_success r = true ->
  body_json r = Some (JObj user_data) ->
  user_data !! "vendor" = Some (JObj vendor) ->
  vendor !! "id" = Some vendor_id ->
  truthy vendor_id = false ->
  run py_format w p =
    ([user_info_request (access_token p)],
     inl (HTTPException 400 "User does not have a valid vendor account.")) /\
  (forall (w' : world) (r' : reply) (user_data' vendor' : gmap string json),
      w' (user_info_request (access_token p)) = Replied r' ->
      is_success r' = true ->
      body_json r' = Some (JObj user_data') ->
      user_data' !! "vendor" = Some (JObj vendor') ->
      vendor' !! "id" = None \/ vendor' !! "id" = Some JNull ->
      run py_format w' p = run py_format w p) /\
  (forall (w' : world) (tok : string) (v : json) (url : string),
      (resolve_vendor py_format w' tok []).2 = inr (v, url) ->
      truthy v = true /\ v <> JInt 0).
Proof.
  intros Hw Hs Hj Hv Hid Ht.
  assert (Hrun : run py_format w p =
    ([user_info_request (access_token p)],
     inl (HTTPException 400 "User does not have a valid vendor account."))).
  { rewrite run_spec. cbv zeta. unfold vendor_result. rewrite Hw, Hs, Hj.
    unfold get, get_default. rewrite Hv, Hid, Ht.
    by rewrite (answered_encode _ _ _ Hw). }
  split; [done|]. split.
  - intros w' r' ud' vd' Hw' Hs' Hj' Hv' Hid'. rewrite Hrun.
    rewrite run_spec. cbv zeta. unfold vendor_result. rewrite Hw', Hs', Hj'.
    rewrite (answered_encode _ _ _ Hw').
    unfold get, get_default. rewrite Hv'. by destruct Hid' as [-> | ->].
  - intros w' tok v url H. rewrite resolve_vendor_result in H.
    destruct (encode_request _); [done|].
    apply vendor_result_inv in H as [H _]. split; [done|]. by intros ->.
Qed.

Lemma C9_witness :
  run sample_format (scripted vendor_0 Failed Failed Failed Failed) (sample_payload None) =
  ([user_info_request "token"],
   inl (HTTPException 400 "User does not have a valid vendor account.")).
Proof.
  apply (C9_falsy_vendor_id sample_format
           (scripted vendor_0 Failed Failed Failed Failed) (sample_payload None)
           (Reply 200 "OK" (Some (JObj {[ "vendor" := JObj {[ "id" := JInt 0 ]} ]})))
           {[ "vendor" := JObj {[ "id" := JInt 0 ]} ]} {[ "id" := JInt 0 ]} (JInt 0));
    reflexivity.
Defined.

(** *** Media stage *)

(** C8.  For a payload with no video link, no call to the video checker is
    ever made, and the media stage issues the image-upload call and nothing
    else. *)
Theorem C8_no_video_link_no_check (py_format : json -> string) (w : world)
    (p : TelegramWebhookPayload) :
  video (raw_data_json p) = None ->
  Forall (fun rq => is_video_check_call rq = false) (run py_format w p).1 /\
  forall tr,
    (process_media w (photos (raw_data_json p)) (video_link_of p) tr).1 =
    (tr ++ [image_request (photos (raw_data_json p))])%list.
Proof.
  intros Hv. pose proof (video_link_of_None p Hv) as Hvl. split.
  - rewrite run_spec. cbv zeta. rewrite Hvl.
    destruct (vendor_result _ _) as [e|[vendor_id url]] eqn:Hvr.
    { destruct (encode_request _); by repeat constructor. }
    apply vendor_result_inv in Hvr as [_ ->].
    destruct (media_result _ _) as [e|[ids vid]]; cbn [fst].
    { by repeat constructor. }
    destruct (draft_result _ _ _ _ _) as [e|draft]; cbn [fst].
    { by repeat constructor. }
    destruct (json_encodable draft); by repeat constructor.
  - intros tr. rewrite (emits_process_media w _ _ tr). by rewrite Hvl.
Qed.

Lemma C8_witness :
  Forall (fun rq => is_video_check_call rq = false)
    (run sample_format (shirt_world (JObj shirt_data)) (sample_payload None)).1 /\
  forall tr,
    (process_media (shirt_world (JObj shirt_data))
       (photos (raw_data_json (sample_payload None)))
       (video_link_of (sample_payload None)) tr).1 =
    (tr ++ [image_request (photos (raw_data_json (sample_payload None)))])%list.
Proof.
  apply (C8_no_video_link_no_check sample_format (shirt_world (JObj shirt_data))
           (sample_payload None)); reflexivity.
Defined.

(** C3, as amended.  If the image service answers with zero valid image
    ids and no media task failed at transport level (the video check, when
    there is one, was answered), the handler fails with
    400 "Uploader service returned no valid image IDs." and has called
    neither the description service nor the product endpoint.  More
    generally, in every run, a draft that reaches the product endpoint holds
    a valid image id: its [photo] and [photos] are the head and the tail of
    the non-empty id list collected from the image service's answer. *)
Theorem C3_no_image_ids_is_400 (py_format : json -> string) (w : world)
    (p : TelegramWebhookPayload) (vendor_id : json) :
  let rd := raw_data_json p in
  vendor_is w (access_token p) vendor_id ->
  images_are w (photos rd) [] ->
  video_outcome w (video_link_of p) <> Some Failed ->
  run py_format w p =
    (user_info_request (access_token p) :: media_requests (photos rd) (video_link_of p),
     inl (HTTPException 400 "Uploader service returned no valid image IDs.")) /\
  Forall (fun rq => is_description_call rq = false /\ is_submission_call rq = false)
    (run py_format w p).1 /\
  (forall (py_format' : json -> string) (w' : world) (p' : TelegramWebhookPayload)
          (draft : json),
      draft ∈ submitted_drafts (run py_format' w' p').1 ->
      exists (m : gmap string json) (first : json) (others : list json),
        draft = JObj m /\
        images_are w' (photos (raw_data_json p')) (first :: others) /\
        m !! "photo" = Some first /\
        m !! "photos" = Some (JArr others)).
Proof.
  intros rd Hvendor Himg Hvid.
  assert (Hrun : run py_format w p =
    (user_info_request (access_token p) :: media_requests (photos rd) (video_link_of p),
     inl (HTTPException 400 "Uploader service returned no valid image IDs."))).
  { rewrite run_spec. cbv zeta. rewrite (vendor_is_result _ _ _ _ Hvendor).
    apply images_are_result in Himg as (r & Hw & Hr).
    fold rd. rewrite Hw. unfold media_result.
    destruct (video_outcome w (video_link_of p)) as [[vr|]|]; [| done |];
      by rewrite Hr. }
  split; [done|]. split.
  - rewrite Hrun. cbn [fst]. unfold media_requests.
    destruct (url_truthy _); by repeat constructor.
  - intros fmt' w' p' draft Hin.
    apply submitted_draft_inv in Hin
      as (v & first & others & vid & data & _ & Hi & _ & _ & ->).
    exists (final_draft data (first :: others) vid v (stock (raw_data_json p'))),
      first, others.
    split; [done|]. split; [done|].
    by rewrite final_draft_photo, final_draft_photos.
Qed.

Lemma C3_witness :
  run sample_format (scripted vendor_42 no_images Failed Failed Failed) (sample_payload None) =
  ([user_info_request "token";
    image_request ["https://cdn.example/a.jpg"; "https://cdn.example/b.jpg"]],
   inl (HTTPException 400 "Uploader service returned no valid image IDs.")).
Proof.
  apply (C3_no_image_ids_is_400 sample_format
           (scripted vendor_42 no_images Failed Failed Failed) (sample_payload None)
           (JInt 42)).
  - exists (Reply 200 "OK" (Some (JObj {[ "vendor" := JObj {[ "id" := JInt 42 ]} ]}))),
      {[ "vendor" := JObj {[ "id" := JInt 42 ]} ]}, {[ "id" := JInt 42 ]}.
    repeat split; reflexivity.
  - exists (Reply 200 "OK" (Some (JObj {[ "processed_images" := JArr [] ]}))),
      (JObj {[ "processed_images" := JArr [] ]}).
    repeat split; reflexivity.
  - vm_compute. discriminate.
Defined.

(** C3 as stated fails: the image service answers 2xx with zero ids, but
    the video check issued beside it fails at transport level; the loop
    over the gathered results runs before the ids are read and the request
    ends with 504, not with a 400-class error. *)
Lemma C3_counterexample :
  images_are (scripted vendor_42 no_images Failed Failed Failed)
    (photos (raw_data_json (sample_payload sample_video))) [] /\
  run sample_format (scripted vendor_42 no_images Failed Failed Failed)
    (sample_payload sample_video) =
  ([user_info_request "token";
    image_request ["https://cdn.example/a.jpg"; "https://cdn.example/b.jpg"];
    video_request "https://cdn.example/v.mp4"],
   inl (HTTPException 504
          "Network error for https://dwh-n8n.basalam.dev/webhook-test/Video-Check")).
Proof.
  split; [|vm_compute; reflexivity].
  exists (Reply 200 "OK" (Some (JObj {[ "processed_images" := JArr [] ]}))),
    (JObj {[ "processed_images" := JArr [] ]}).
  repeat split; reflexivity.
Qed.

(** C5, as amended.  When the handler gets to check the status of a media
    call (no task failed at transport level and, for the video check, the
    image answer went through with at least one id) and that status is not
    2xx, the request fails with a 502 error whose detail names the failed
    service by its URL and includes the downstream body.  The downstream
    status is not part of the error. *)
Theorem C5_media_status_error (py_format : json -> string) (w : world)
    (p : TelegramWebhookPayload) (vendor_id : json) (c : media_call) (r : reply) :
  let rd := raw_data_json p in
  vendor_is w (access_token p) vendor_id ->
  status_checked w (photos rd) (video_link_of p) c r ->
  is_success r = false ->
  run py_format w p =
  (user_info_request (access_token p) :: media_requests (photos rd) (video_link_of p),
   inl (HTTPException 502
          ("Error from media service " +:+ media_url c +:+ ": " +:+ text r))).
Proof.
  intros rd Hvendor Hc Hs.
  rewrite run_spec. cbv zeta. rewrite (vendor_is_result _ _ _ _ Hvendor). fold rd.
  destruct c; cbn [status_checked media_url] in *.
  - destruct Hc as [Hw Hvid]. rewrite Hw. unfold media_result, image_result.
    rewrite Hs. by destruct (video_outcome w (video_link_of p)) as [[vr|]|].
  - destruct Hc as [Hvid (first & others & Himg)].
    apply images_are_result in Himg as (ir & Hw & Hr).
    rewrite Hw, Hvid. unfold media_result. rewrite Hr.
    unfold video_result. by rewrite Hs.
Qed.

Lemma C5_witness :
  run sample_format (video_world (status 500 "boom") JNull) (sample_payload sample_video) =
  ([user_info_request "token";
    image_request ["https://cdn.example/a.jpg"; "https://cdn.example/b.jpg"];
    video_request "https://cdn.example/v.mp4"],
   inl (HTTPException 502
          "Error from media service https://dwh-n8n.basalam.dev/webhook-test/Video-Check: boom")).
Proof.
  apply (C5_media_status_error sample_format (video_world (status 500 "boom") JNull)
           (sample_payload sample_video) (JInt 42) VideoCheck (Reply 500 "boom" None)).
  - exists (Reply 200 "OK" (Some (JObj {[ "vendor" := JObj {[ "id" := JInt 42 ]} ]}))),
      {[ "vendor" := JObj {[ "id" := JInt 42 ]} ]}, {[ "id" := JInt 42 ]}.
    repeat split; reflexivity.
  - split; [reflexivity|].
    exists (JInt 101), [JInt 102].
    eexists (Reply 200 "OK" (Some _)), _.
    repeat split; reflexivity.
  - reflexivity.
Defined.

(** C5 as stated fails: the error does not include the downstream status.
    Image answers 500 and 503 with the same body give one and the same
    error. *)
Lemma C5_counterexample :
  (run sample_format (scripted vendor_42 (status 500 "boom") Failed Failed Failed)
     (sample_payload None)).2 =
    inl (HTTPException 502
           "Error from media service https://smart-uploader.basalam.dev/process-images: boom") /\
  (run sample_format (scripted vendor_42 (status 503 "boom") Failed Failed Failed)
     (sample_payload None)).2 =
    inl (HTTPException 502
           "Error from media service https://smart-uploader.basalam.dev/process-images: boom").
Proof. split; vm_compute; reflexivity. Qed.

(** C2, as amended.  Whenever a draft reaches the product endpoint and the
    image service had answered with the array [imgs] of processed images,
    the draft's [photo] is the first and its [photos] are the remaining ids,
    in their original order, of the processed images that carry an [id]
    field; entries without one are skipped.  When each of the N processed
    images carries an id, [photo] is the id of the first image and [photos]
    the ids of the N-1 others. *)
Theorem C2_photo_fields (py_format : json -> string) (w : world)
    (p : TelegramWebhookPayload) (r : reply) (image_json : gmap string json)
    (imgs : list json) (draft : json) :
  w (image_request (photos (raw_data_json p))) = Replied r ->
  body_json r = Some (JObj image_json) ->
  image_json !! "processed_images" = Some (JArr imgs) ->
  draft ∈ submitted_drafts (run py_format w p).1 ->
  exists (m : gmap string json) (first : json) (others : list json),
    draft = JObj m /\
    omap id_of imgs = first :: others /\
    m !! "photo" = Some first /\
    m !! "photos" = Some (JArr others) /\
    (Forall (fun img => is_Some (id_of img)) imgs ->
     exists img rest,
       imgs = img :: rest /\ id_of img = Some first /\
       Forall2 (fun img x => id_of img = Some x) rest others).
Proof.
  intros Hw Hj Hp Hin.
  apply submitted_draft_inv in Hin
    as (v & first & others & vid & data & _ & Hi & _ & _ & ->).
  pose proof (images_are_inj _ _ _ _ _ Hi Hw Hj) as Hids.
  rewrite (extract_image_ids_array _ _ Hp) in Hids.
  apply collect_ids_omap in Hids.
  exists (final_draft data (first :: others) vid v (stock (raw_data_json p))),
    first, others.
  rewrite final_draft_photo, final_draft_photos.
  repeat split; try done.
  intros Hall. destruct imgs as [|img rest]; [done|].
  exists img, rest. split; [done|].
  apply Forall_cons in Hall as [[x Hx] Hrest].
  cbn [omap list_omap] in Hids. rewrite Hx in Hids. injection Hids as -> ->.
  split; [done|].
  clear -Hrest. induction Hrest as [|y ys [z Hz] _ IH]; cbn [omap list_omap].
  - constructor.
  - rewrite Hz. by constructor.
Qed.

Lemma C2_witness :
  exists (m : gmap string json),
    submitted_drafts
      (run sample_format (shirt_world (JObj shirt_data)) (sample_payload None)).1 = [JObj m] /\
    m !! "photo" = Some (JInt 101) /\
    m !! "photos" = Some (JArr [JInt 102]).
Proof.
  destruct (C2_photo_fields sample_format (shirt_world (JObj shirt_data))
              (sample_payload None)
              (Reply 200 "OK"
                 (Some (JObj {[ "processed_images" :=
                   JArr [JObj {[ "id" := JInt 101 ]}; JObj {[ "id" := JInt 102 ]}] ]})))
              {[ "processed_images" :=
                   JArr [JObj {[ "id" := JInt 101 ]}; JObj {[ "id" := JInt 102 ]}] ]}
              [JObj {[ "id" := JInt 101 ]}; JObj {[ "id" := JInt 102 ]}]
              (JObj (final_draft shirt_data [JInt 101; JInt 102] JNull (JInt 42) 5)))
    as (m & first & others & Hm & Hids & Hphoto & Hphotos & _).
  - reflexivity.
  - reflexivity.
  - reflexivity.
  - vm_compute. left.
  - injection Hm as <-. injection Hids as <- <-.
    exists (final_draft shirt_data [JInt 101; JInt 102] JNull (JInt 42) 5).
    split; [vm_compute; reflexivity|]. split; assumption.
Defined.

(** C2 as stated fails: the image service answers with N = 2 processed
    images of which the first has no [id]; the submitted draft has the id of
    the second image as [photo] and an empty [photos], not N-1 = 1 ids. *)
Lemma C2_counterexample :
  exists (m : gmap string json),
    submitted_drafts
      (run sample_format
         (scripted vendor_42 images_second_with_id Failed
            (description_of (JObj shirt_data)) created)
         (sample_payload None)).1 = [JObj m] /\
    m !! "photo" = Some (JInt 7) /\
    m !! "photos" = Some (JArr []).
Proof.
  exists (final_draft shirt_data [JInt 7] JNull (JInt 42) 5).
  repeat split; vm_compute; reflexivity.
Qed.

(** *** Draft and submission *)



(** C6, as amended.  When the description service answers 2xx with a JSON
    object whose [data] is missing or falsy (null, an empty object, ...),
    the handler fails with
    500 "Received invalid payload from description service." and the product
    endpoint is not called.  A [data] that is truthy without being an object
    passes that check: the handler then stops in step 4 on an uncaught
    [TypeError], again before any call to the product endpoint. *)
Theorem C6_invalid_description_payload (py_format : json -> string) (w : world)
    (p : TelegramWebhookPayload) (vendor_id : json) (image_ids : list json)
    (video_id : json) (r : reply) (prep_json : gmap string json) :
  let rd := raw_data_json p in
  let calls :=
    ((user_info_request (access_token p) :: media_requests (photos rd) (video_link_of p))
       ++ [description_request (message (raw_message rd))])%list in
  vendor_is w (access_token p) vendor_id ->
  (process_media w (photos rd) (video_link_of p) []).2 = inr (image_ids, video_id) ->
  w (description_request (message (raw_message rd))) = Replied r ->
  is_success r = true ->
  body_json r = Some (JObj prep_json) ->
  (from_option truthy false (prep_json !! "data") = false ->
   run py_format w p =
     (calls, inl (HTTPException 500 "Received invalid payload from description service."))) /\
  (forall data,
     prep_json !! "data" = Some data -> truthy data = true -> ~ is_obj data ->
     run py_format w p = (calls, inl (Builtin TypeError))) /\
  submitted_drafts calls = [].
Proof.
  intros rd calls Hvendor Hmedia Hw Hs Hj.
  rewrite process_media_result in Hmedia.
  assert (Hrun : run py_format w p =
    match draft_result (w (description_request (message (raw_message rd))))
            image_ids video_id vendor_id (stock rd) with
    | inl e => (calls, inl e)
    | inr draft =>
        if json_encodable draft then
          ((user_info_request (access_token p)
              :: media_requests (photos rd) (video_link_of p)) ++
             [description_request (message (raw_message rd));
              submission_request (BASALAM_PRODUCTS_URL_TEMPLATE_format py_format vendor_id)
                (access_token p) draft],
           submit_result
             (w (submission_request
                   (BASALAM_PRODUCTS_URL_TEMPLATE_format py_format vendor_id)
                   (access_token p) draft)) draft)
        else (calls, inl (Builtin ValueError))
    end).
  { rewrite run_spec. cbv zeta. fold rd.
    by rewrite (vendor_is_result _ _ _ _ Hvendor), Hmedia. }
  unfold draft_result in Hrun. rewrite Hw, Hs, Hj in Hrun.
  unfold get, get_default in Hrun.
  repeat split.
  - intros Hfalsy. rewrite Hrun.
    destruct (prep_json !! "data") as [data|]; cbn [from_option] in Hfalsy.
    + by rewrite Hfalsy.
    + done.
  - intros data Hd Ht Hobj. rewrite Hrun, Hd, Ht.
    by destruct data.
  - unfold calls. change (?x :: media_requests ?a ?b) with ([x] ++ media_requests a b)%list.
    by rewrite !submitted_drafts_app, submitted_drafts_media.
Qed.

Lemma C6_witness :
  run sample_format (shirt_world JNull) (sample_payload None) =
  ([user_info_request "token";
    image_request ["https://cdn.example/a.jpg"; "https://cdn.example/b.jpg"];
    description_request "shirt"],
   inl (HTTPException 500 "Received invalid payload from description service.")).
Proof.
  apply (C6_invalid_description_payload sample_format (shirt_world JNull)
           (sample_payload None) (JInt 42) [JInt 101; JInt 102] JNull
           (Reply 200 "OK" (Some (JObj {[ "data" := JNull ]}))) {[ "data" := JNull ]}).
  - exists (Reply 200 "OK" (Some (JObj {[ "vendor" := JObj {[ "id" := JInt 42 ]} ]}))),
      {[ "vendor" := JObj {[ "id" := JInt 42 ]} ]}, {[ "id" := JInt 42 ]}.
    repeat split; reflexivity.
  - vm_compute. reflexivity.
  - reflexivity.
  - reflexivity.
  - reflexivity.
  - reflexivity.
Defined.

(** C6 as stated fails: the description service answers 2xx with the
    string "abc" under [data], which is not an object; the handler does not
    raise the 500 error but stops on an uncaught [TypeError]. *)
Lemma C6_counterexample :
  run sample_format (shirt_world (JStr "abc")) (sample_payload None) =
  ([user_info_request "token";
    image_request ["https://cdn.example/a.jpg"; "https://cdn.example/b.jpg"];
    description_request "shirt"],
   inl (Builtin TypeError)).
Proof. vm_compute. reflexivity. Qed.

(** *** Video verdicts *)







(* ===================================================================== *)
(** ** Further properties of the handler *)
(* ===================================================================== *)

Ltac vendor_42_is :=
  exists (Reply 200 "OK" (Some (JObj {[ "vendor" := JObj {[ "id" := JInt 42 ]} ]}))),
    {[ "vendor" := JObj {[ "id" := JInt 42 ]} ]}, {[ "id" := JInt 42 ]};
  repeat split; reflexivity.

(** *** Media stage: transport failures, malformed answers, the id filter *)

(** X1.  When a media task fails at transport level, the request fails with
    504 "Network error for <url>" naming the first failed task in creation
    order, whatever the other task returned (a non-2xx answer included), and
    neither the description service nor the product endpoint is called. *)
Theorem media_transport_failure_is_504 (py_format : json -> string) (w : world)
    (p : TelegramWebhookPayload) (vendor_id : json) (c : media_call) :
  let rd := raw_data_json p in
  vendor_is w (access_token p) vendor_id ->
  first_failed w (photos rd) (video_link_of p) c ->
  run py_format w p =
  (user_info_request (access_token p) :: media_requests (photos rd) (video_link_of p),
   inl (HTTPException 504 ("Network error for " +:+ media_url c))).
Proof.
  intros rd Hvendor Hc. rewrite run_spec. cbv zeta.
  rewrite (vendor_is_result _ _ _ _ Hvendor). fold rd.
  destruct c; cbn [first_failed media_url] in *.
  - by rewrite Hc.
  - destruct Hc as [[r Hw] Hvo]. by rewrite Hw, Hvo.
Qed.

Lemma media_transport_failure_is_504_witness :
  run sample_format (scripted vendor_42 (status 500 "boom") Failed Failed Failed)
    (sample_payload sample_video) =
  ([user_info_request "token";
    image_request ["https://cdn.example/a.jpg"; "https://cdn.example/b.jpg"];
    video_request "https://cdn.example/v.mp4"],
   inl (HTTPException 504
          "Network error for https://dwh-n8n.basalam.dev/webhook-test/Video-Check")).
Proof.
  apply (media_transport_failure_is_504 sample_format
           (scripted vendor_42 (status 500 "boom") Failed Failed Failed)
           (sample_payload sample_video) (JInt 42) VideoCheck).
  - vendor_42_is.
  - split; [by exists (Reply 500 "boom" None) | reflexivity].
Defined.

(** X2.  The loop over the gathered results lets a list of responses
    through and, at the first exception object, raises 504 with the URL
    [task_urls] holds at that position, whatever follows it. *)
Theorem check_exceptions_first_failure (task_urls : list string) (i : nat)
    (rs : list response) (rest : list gathered) (u : string) (tr : list request) :
  task_urls !! (i + length rs)%nat = Some u ->
  check_exceptions task_urls i (Got <$> rs) tr = (tr, inr tt) /\
  check_exceptions task_urls i ((Got <$> rs) ++ Exc :: rest) tr =
    (tr, inl (HTTPException 504 ("Network error for " +:+ u))).
Proof.
  revert i. induction rs as [|r rs IH]; intros i Hu.
  - split; [done|]. cbn [fmap list_fmap app check_exceptions].
    rewrite Nat.add_0_r in Hu.
    unfold bind, py, index. by rewrite Hu.
  - cbn [fmap list_fmap app check_exceptions]. apply IH.
    by rewrite Nat.add_succ_comm.
Qed.

Lemma check_exceptions_first_failure_witness :
  check_exceptions ["u0"; "u1"; "u2"] 0
    [Got (Response (image_request []) (Reply 200 "" None)); Exc; Exc] [] =
  ([], inl (HTTPException 504 "Network error for u1")).
Proof.
  apply (check_exceptions_first_failure ["u0"; "u1"; "u2"] 0
           [Response (image_request []) (Reply 200 "" None)] [Exc] "u1" []).
  reflexivity.
Defined.

(** X3.  With a video link in the payload and a resolved vendor, the image
    upload and the video check are both issued, in that order, right after
    the user-info call, whatever either of them returns; no later call goes
    to a media service. *)
Theorem both_media_calls_issued (py_format : json -> string) (w : world)
    (p : TelegramWebhookPayload) (vendor_id : json) (link : string) :
  let rd := raw_data_json p in
  vendor_is w (access_token p) vendor_id ->
  video rd = Some link ->
  link <> "" ->
  exists rest,
    (run py_format w p).1 =
      user_info_request (access_token p) :: image_request (photos rd)
        :: video_request link :: rest /\
    Forall (fun rq => is_media_call rq = false) rest.
Proof.
  intros rd Hvendor Hvideo Hne.
  assert (Hvl : video_link_of p = Some link).
  { unfold video_link_of. fold rd. rewrite Hvideo. cbn [url_truthy].
    by apply String.eqb_neq in Hne as ->. }
  assert (Hmedia : media_requests (photos rd) (Some link) =
                   [image_request (photos rd); video_request link]).
  { unfold media_requests. cbn [url_truthy].
    by apply String.eqb_neq in Hne as ->. }
  pose proof (vendor_is_result py_format _ _ _ Hvendor) as Hv.
  pose proof (vendor_is_encode _ _ _ Hvendor) as Hui.
  destruct (run_cases py_format w p)
    as [(e & He & _) | [(e & He & _) | [(v & e & _ & _ & ->)
       | [(v & ids & vid & e & _ & _ & _ & ->)
       | [(v & ids & vid & draft & _ & _ & _ & _ & ->)
       | (v & ids & vid & draft & _ & _ & _ & _ & ->)]]]]];
    cbn [fst]; fold rd; rewrite ?Hvl, ?Hmedia.
  - by rewrite Hui in He.
  - by rewrite Hv in He.
  - by exists [].
  - eexists. split; [reflexivity|]. by repeat constructor.
  - eexists. split; [reflexivity|]. by repeat constructor.
  - eexists. split; [reflexivity|]. by repeat constructor.
Qed.

Lemma both_media_calls_issued_witness :
  exists rest,
    (run sample_format (scripted vendor_42 Failed (status 500 "boom") Failed Failed)
       (sample_payload sample_video)).1 =
      user_info_request "token"
        :: image_request ["https://cdn.example/a.jpg"; "https://cdn.example/b.jpg"]
        :: video_request "https://cdn.example/v.mp4" :: rest /\
    Forall (fun rq => is_media_call rq = false) rest.
Proof.
  apply (both_media_calls_issued sample_format
           (scripted vendor_42 Failed (status 500 "boom") Failed Failed)
           (sample_payload sample_video) (JInt 42) "https://cdn.example/v.mp4").
  - vendor_42_is.
  - reflexivity.
  - discriminate.
Defined.



(** X5.  On an array of JSON objects the id filter of lines 105-106 never
    fails: it returns, in their original order, the [id] value of each
    object that has the key, whatever that value is (null included), and
    skips the others, so it never returns more ids than there are images. *)
Theorem id_filter_on_objects (image_json : gmap string json) (imgs : list json) :
  image_json !! "processed_images" = Some (JArr imgs) ->
  Forall is_obj imgs ->
  extract_image_ids (JObj image_json) = inr (omap id_of imgs) /\
  (length (omap id_of imgs) <= length imgs)%nat.
Proof.
  intros Hp Hall. split.
  2: { clear. induction imgs as [|img rest IH]; cbn [omap list_omap length]; [lia|].
       destruct (id_of img); cbn [length]; lia. }
  rewrite (extract_image_ids_array _ _ Hp). clear Hp.
  induction Hall as [|img rest Himg _ IH]; [done|].
  destruct img as [| | | | | | o]; try done.
  cbn [collect_ids omap list_omap contains getitem id_of].
  destruct (o !! "id") as [x|].
  - rewrite bool_decide_eq_true_2 by eauto. by rewrite IH.
  - rewrite bool_decide_eq_false_2 by (by intros [? ?]). done.
Qed.

Lemma id_filter_on_objects_witness :
  extract_image_ids
    (JObj {[ "processed_images" :=
               JArr [JObj {[ "url" := JStr "u" ]}; JObj {[ "id" := JInt 7 ]};
                     JObj {[ "id" := JNull ]}] ]}) =
  inr [JInt 7; JNull].
Proof.
  destruct (id_filter_on_objects
              {[ "processed_images" :=
                   JArr [JObj {[ "url" := JStr "u" ]}; JObj {[ "id" := JInt 7 ]};
                         JObj {[ "id" := JNull ]}] ]}
              [JObj {[ "url" := JStr "u" ]}; JObj {[ "id" := JInt 7 ]};
               JObj {[ "id" := JNull ]}]) as [Hids _].
  - reflexivity.
  - repeat constructor.
  - rewrite Hids. vm_compute. reflexivity.
Defined.

(** X6.  The id filter raises [TypeError] when [processed_images] is null,
    a boolean or a number, and when an entry of the array is one of those
    while the entries before it are objects. *)
Theorem id_filter_rejects_scalars (image_json : gmap string json) (v : json) :
  image_json !! "processed_images" = Some v ->
  is_scalar v = true \/
    (exists objs bad rest,
       v = JArr (objs ++ bad :: rest) /\ Forall is_obj objs /\ is_scalar bad = true) ->
  extract_image_ids (JObj image_json) = inl TypeError.
Proof.
  intros Hp [Hv | (objs & bad & rest & -> & Hobjs & Hbad)].
  - unfold extract_image_ids, get_default. rewrite Hp. by destruct v.
  - rewrite (extract_image_ids_array _ _ Hp). clear Hp.
    induction Hobjs as [|img objs Himg _ IH].
    + cbn [app collect_ids]. by destruct bad.
    + destruct img as [| | | | | | o]; try done.
      cbn [app collect_ids contains getitem].
      destruct (o !! "id") as [x|].
      * rewrite bool_decide_eq_true_2 by eauto. by rewrite IH.
      * rewrite bool_decide_eq_false_2 by (by intros [? ?]). done.
Qed.

Lemma id_filter_rejects_scalars_witness :
  extract_image_ids
    (JObj {[ "processed_images" := JArr [JObj {[ "id" := JInt 7 ]}; JInt 8] ]}) =
  inl TypeError.
Proof.
  apply (id_filter_rejects_scalars
           {[ "processed_images" := JArr [JObj {[ "id" := JInt 7 ]}; JInt 8] ]}
           (JArr [JObj {[ "id" := JInt 7 ]}; JInt 8])).
  - reflexivity.
  - right. exists [JObj {[ "id" := JInt 7 ]}], (JInt 8), [].
    split; [reflexivity|]. split; [repeat constructor | reflexivity].
Defined.

(** X7.  The id filter finds no id, without failing, when the answer has no
    [processed_images] key (the default is the empty list) and when the
    value under that key is a string (its characters are iterated and none
    contains "id"). *)
Theorem id_filter_finds_nothing (image_json : gmap string json) :
  image_json !! "processed_images" = None \/
    (exists s, image_json !! "processed_images" = Some (JStr s)) ->
  extract_image_ids (JObj image_json) = inr [].
Proof.
  intros [Hp | [s Hp]]; unfold extract_image_ids, get_default; rewrite Hp; [done|].
  cbn [iter]. clear Hp. induction s as [|c s IH]; [done|].
  cbn [chars collect_ids contains]. unfold str_contains.
  cbn [String.index String.prefix].
  destruct (Ascii.ascii_dec _ c); exact IH.
Qed.

Lemma id_filter_finds_nothing_witness :
  extract_image_ids (JObj {[ "processed_images" := JStr "video" ]}) = inr [].
Proof.
  apply (id_filter_finds_nothing {[ "processed_images" := JStr "video" ]}).
  right. exists "video". reflexivity.
Defined.

(** *** Vendor lookup: shapes of the user-info answer *)

(** X8.  For a 2xx user-info answer that is a JSON object: without a
    [vendor] key the request fails with the 400 "no vendor account" error,
    but a [vendor] that is present and not an object (null, for one) ends
    the request on an uncaught [AttributeError]; in both cases the
    user-info call is the only call. *)
Theorem vendor_key_missing_or_not_object (py_format : json -> string) (w : world)
    (p : TelegramWebhookPayload) (r : reply) (user_data : gmap string json) :
  w (user_info_request (access_token p)) = Replied r ->
  is_success r = true ->
  body_json r = Some (JObj user_data) ->
  (user_data !! "vendor" = None ->
   run py_format w p =
     ([user_info_request (access_token p)],
      inl (HTTPException 400 "User does not have a valid vendor account."))) /\
  (forall vendor, user_data !! "vendor" = Some vendor -> ~ is_obj vendor ->
   run py_format w p =
     ([user_info_request (access_token p)], inl (Builtin AttributeError))).
Proof.
  intros Hw Hs Hj.
  assert (Hrun : forall e,
    vendor_result py_format (w (user_info_request (access_token p))) = inl e ->
    run py_format w p = ([user_info_request (access_token p)], inl e)).
  { intros e He. rewrite run_spec. cbv zeta. rewrite He.
    by rewrite (answered_encode _ _ _ Hw). }
  split.
  - intros Hnone. apply Hrun. unfold vendor_result. rewrite Hw, Hs, Hj.
    unfold get, get_default. rewrite Hnone. by rewrite lookup_empty.
  - intros vendor Hsome Hobj. apply Hrun. unfold vendor_result. rewrite Hw, Hs, Hj.
    unfold get, get_default. rewrite Hsome. by destruct vendor.
Qed.

Lemma vendor_key_missing_or_not_object_witness :
  run sample_format
    (scripted (ok (JObj {[ "vendor" := JNull ]})) Failed Failed Failed Failed)
    (sample_payload None) =
  ([user_info_request "token"], inl (Builtin AttributeError)).
Proof.
  destruct (vendor_key_missing_or_not_object sample_format
              (scripted (ok (JObj {[ "vendor" := JNull ]})) Failed Failed Failed Failed)
              (sample_payload None)
              (Reply 200 "OK" (Some (JObj {[ "vendor" := JNull ]})))
              {[ "vendor" := JNull ]}) as [_ Hnull].
  - reflexivity.
  - reflexivity.
  - reflexivity.
  - apply (Hnull JNull); [reflexivity | intros []].
Defined.

(** *** Transport failures outside the media stage *)

(** X9.  Only the media stage maps transport failures to 504.  When the
    last call a run issued is not a media call and failed at transport
    level (user info, description service or product endpoint), the handler
    ends on the uncaught transport exception. *)
Theorem transport_error_escapes (py_format : json -> string) (w : world)
    (p : TelegramWebhookPayload) (rq : request) :
  last (run py_format w p).1 = Some rq ->
  is_media_call rq = false ->
  w rq = Failed ->
  (run py_format w p).2 = inl TransportError.
Proof.
  intros Hlast Hkind Hfail.
  destruct (run_cases py_format w p)
    as [(e & _ & Hrun) | [(e & He & Hrun) | [(v & e & _ & _ & Hrun)
       | [(v & ids & vid & e & _ & _ & He & Hrun)
       | [(v & ids & vid & draft & _ & _ & He & _ & Hrun)
       | (v & ids & vid & draft & _ & _ & _ & _ & Hrun)]]]]];
    rewrite Hrun in Hlast |- *; cbn [fst snd] in *.
  - discriminate Hlast.
  - injection Hlast as <-. rewrite Hfail in He. by injection He as <-.
  - exfalso. unfold media_requests in Hlast.
    destruct (url_truthy _); injection Hlast as <-; discriminate Hkind.
  - rewrite last_snoc in Hlast. injection Hlast as <-.
    rewrite Hfail in He. by injection He as <-.
  - rewrite last_snoc in Hlast. injection Hlast as <-.
    rewrite Hfail in He. discriminate He.
  - change [?a; ?b] with ([a] ++ [b])%list in Hlast.
    rewrite app_assoc, last_snoc in Hlast. injection Hlast as <-.
    by rewrite Hfail.
Qed.

Lemma transport_error_escapes_witness :
  (run sample_format (scripted vendor_42 images_101_102 Failed Failed Failed)
     (sample_payload None)).2 = inl TransportError.
Proof.
  apply (transport_error_escapes sample_format
           (scripted vendor_42 images_101_102 Failed Failed Failed)
           (sample_payload None) (description_request "shirt")); reflexivity.
Defined.

(** *** Video accepted *)



(** *** Description service and final submission: downstream errors *)

(** X11.  When the description service answers with a non-2xx status, the
    request fails with 502 "Error from Description service: " followed by
    the downstream body, after the user-info, media and description calls;
    the product endpoint is not called. *)
Theorem description_status_error (py_format : json -> string) (w : world)
    (p : TelegramWebhookPayload) (vendor_id : json) (image_ids : list json)
    (video_id : json) (r : reply) :
  let rd := raw_data_json p in
  vendor_is w (access_token p) vendor_id ->
  (process_media w (photos rd) (video_link_of p) []).2 = inr (image_ids, video_id) ->
  w (description_request (message (raw_message rd))) = Replied r ->
  is_success r = false ->
  run py_format w p =
  ((user_info_request (access_token p) :: media_requests (photos rd) (video_link_of p))
     ++ [description_request (message (raw_message rd))],
   inl (HTTPException 502 ("Error from Description service: " +:+ text r))).
Proof.
  intros rd Hvendor Hmedia Hw Hs. rewrite process_media_result in Hmedia.
  rewrite run_spec. cbv zeta. fold rd.
  rewrite (vendor_is_result _ _ _ _ Hvendor), Hmedia.
  unfold draft_result. by rewrite Hw, Hs.
Qed.

Lemma description_status_error_witness :
  run sample_format
    (scripted vendor_42 images_101_102 Failed (status 503 "busy") Failed)
    (sample_payload None) =
  ([user_info_request "token";
    image_request ["https://cdn.example/a.jpg"; "https://cdn.example/b.jpg"];
    description_request "shirt"],
   inl (HTTPException 502 "Error from Description service: busy")).
Proof.
  apply (description_status_error sample_format
           (scripted vendor_42 images_101_102 Failed (status 503 "busy") Failed)
           (sample_payload None) (JInt 42) [JInt 101; JInt 102] JNull
           (Reply 503 "busy" None)).
  - vendor_42_is.
  - vm_compute. reflexivity.
  - reflexivity.
  - reflexivity.
Defined.



(** *** The request as a whole *)

(** X13.  The handler returns a success answer only when the last call it
    made is the one submission of the run and that call was answered 2xx
    with a JSON body; the answer then reports, as [submitted_payload], the
    very draft that was posted and, as [basalam_response], that body. *)
Theorem success_reports_submitted_draft (py_format : json -> string) (w : world)
    (p : TelegramWebhookPayload) (answer : json) :
  (run py_format w p).2 = inr answer ->
  exists (rq : request) (draft : json) (r : reply) (basalam_response : json),
    last (run py_format w p).1 = Some rq /\
    is_submission_call rq = true /\
    req_json rq = Some draft /\
    submitted_drafts (run py_format w p).1 = [draft] /\
    w rq = Replied r /\
    is_success r = true /\
    body_json r = Some basalam_response /\
    answer = success_body draft basalam_response.
Proof.
  intros Hok.
  destruct (run_cases py_format w p)
    as [(e & _ & Hrun) | [(e & _ & Hrun) | [(v & e & _ & _ & Hrun)
       | [(v & ids & vid & e & _ & _ & _ & Hrun)
       | [(v & ids & vid & draft & _ & _ & _ & _ & Hrun)
       | (v & ids & vid & draft & _ & _ & _ & _ & Hrun)]]]]];
    rewrite Hrun in Hok |- *; cbn [fst snd] in *; try done.
  unfold submit_result in Hok.
  destruct (w (submission_request _ _ _)) as [r|] eqn:Hw; [|done].
  destruct (is_success r) eqn:Hs; [|done].
  destruct (body_json r) as [j|] eqn:Hj; [|done].
  injection Hok as <-.
  eexists _, draft, r, j. repeat split; try eassumption.
  - change [?a; ?b] with ([a] ++ [b])%list. by rewrite app_assoc, last_snoc.
  - apply is_submission_call_submission.
  - done.
  - change (?x :: media_requests ?a ?b) with ([x] ++ media_requests a b)%list.
    change [?a; ?b] with ([a] ++ [b])%list.
    by rewrite !submitted_drafts_app, submitted_drafts_media,
      submitted_drafts_submission.
Qed.

Lemma success_reports_submitted_draft_witness :
  exists (draft : json),
    submitted_drafts
      (run sample_format (shirt_world (JObj shirt_data)) (sample_payload None)).1 = [draft] /\
    (run sample_format (shirt_world (JObj shirt_data)) (sample_payload None)).2 =
      inr (success_body draft (JObj {[ "id" := JInt 7 ]})).
Proof.
  destruct (success_reports_submitted_draft sample_format (shirt_world (JObj shirt_data))
              (sample_payload None)
              (success_body
                 (JObj (final_draft shirt_data [JInt 101; JInt 102] JNull (JInt 42) 5))
                 (JObj {[ "id" := JInt 7 ]})))
    as (rq & draft & r & j & _ & _ & _ & Hsub & _ & _ & _ & _).
  - vm_compute. reflexivity.
  - exists (JObj (final_draft shirt_data [JInt 101; JInt 102] JNull (JInt 42) 5)).
    split; vm_compute; reflexivity.
Defined.

(** X14.  Whatever the services answer, no [HTTPStatusError] leaves the
    handler, an [HTTPException] it ends with has status 400, 401, 500, 502
    or 504, and its list and dictionary accesses never raise [IndexError]
    or [KeyError].  Other failures remain possible: the transport exception
    of an awaited call, an [AttributeError], [TypeError] or
    [JSONDecodeError] from a malformed answer, a [UnicodeEncodeError] or
    [ValueError] from a request the client cannot encode. *)
Theorem no_status_error_escapes (py_format : json -> string) (w : world)
    (p : TelegramWebhookPayload) (e : exn) :
  (run py_format w p).2 = inl e ->
  ruled_out e = false.
Proof.
  intros Hfail.
  destruct (run_cases py_format w p)
    as [(e' & He & Hrun) | [(e' & He & Hrun) | [(v & e' & _ & He & Hrun)
       | [(v & ids & vid & e' & _ & _ & He & Hrun)
       | [(v & ids & vid & draft & _ & _ & _ & _ & Hrun)
       | (v & ids & vid & draft & _ & _ & _ & _ & Hrun)]]]]];
    rewrite Hrun in Hfail; cbn [snd] in Hfail.
  - injection Hfail as <-. by apply encode_request_failure in He.
  - injection Hfail as <-. by apply vendor_result_failure in He.
  - injection Hfail as <-. by apply media_result_failure in He.
  - injection Hfail as <-. by apply draft_result_failure in He.
  - by injection Hfail as <-.
  - by apply submit_result_failure in Hfail.
Qed.

Lemma no_status_error_escapes_witness :
  ruled_out (Builtin ValueError) = false.
Proof.
  apply (no_status_error_escapes sample_format (shirt_world (JObj data_with_infinity))
           (sample_payload None) (Builtin ValueError)).
  vm_compute. reflexivity.
Defined.

(** X15.  Every run issues its calls in one fixed order and each at most
    once: user info first; then the media calls; then the description
    service; then the product endpoint.  A run stops after any of these
    four groups, or before the first call when the client cannot encode the
    user-info request, so it makes at most five calls. *)
Theorem call_sequence_shape (py_format : json -> string) (w : world)
    (p : TelegramWebhookPayload) :
  let rd := raw_data_json p in
  let tok := access_token p in
  let media := media_requests (photos rd) (video_link_of p) in
  let description := description_request (message (raw_message rd)) in
  ((run py_format w p).1 = [] /\ sendable (user_info_request tok) = false \/
   exists rest,
     (run py_format w p).1 = user_info_request tok :: rest /\
     (rest = [] \/ rest = media \/ rest = (media ++ [description])%list \/
      exists url draft,
        rest = (media ++ [description; submission_request url tok draft])%list)) /\
  (length (run py_format w p).1 <= 5)%nat.
Proof.
  cbv zeta.
  assert (Hmedia : (length (media_requests (photos (raw_data_json p))
                              (video_link_of p)) <= 2)%nat).
  { unfold media_requests. destruct (url_truthy _); cbn; lia. }
  destruct (run_cases py_format w p)
    as [(e & He & ->) | [(e & _ & ->) | [(v & e & _ & _ & ->)
       | [(v & ids & vid & e & _ & _ & _ & ->)
       | [(v & ids & vid & draft & _ & _ & _ & _ & ->)
       | (v & ids & vid & draft & _ & _ & _ & _ & ->)]]]]]; cbn [fst].
  - split; [left; split; [done|]; unfold sendable; by rewrite He | cbn [length]; lia].
  - split; [right; exists []; auto | cbn [length]; lia].
  - split; [right; eexists; split; [reflexivity | auto] | cbn [length]; lia].
  - split; [right; eexists; split; [reflexivity | auto] |].
    cbn [length app]. rewrite length_app. cbn [length]. lia.
  - split; [right; eexists; split; [reflexivity | auto] |].
    cbn [length app]. rewrite length_app. cbn [length]. lia.
  - split.
    + right. eexists. split; [reflexivity|]. right. right. right. by eexists _, _.
    + cbn [length app]. rewrite length_app. cbn [length]. lia.
Qed.

(** X16.  The access token is sent to the Basalam API only: in every run
    the user-info call and the product submission carry exactly the header
    [Authorization: Bearer <access_token>], and the calls to the image
    uploader, the video checker and the description service carry no header
    at all. *)
Theorem bearer_token_only_to_basalam (py_format : json -> string) (w : world)
    (p : TelegramWebhookPayload) :
  Forall
    (fun rq =>
       req_headers rq =
       if is_user_info_call rq || is_submission_call rq
       then [("Authorization", "Bearer " +:+ access_token p)]
       else [])
    (run py_format w p).1.
Proof.
  assert (Hmedia : Forall
    (fun rq =>
       req_headers rq =
       if is_user_info_call rq || is_submission_call rq
       then [("Authorization", "Bearer " +:+ access_token p)]
       else [])
    (media_requests (photos (raw_data_json p)) (video_link_of p))).
  { unfold media_requests. destruct (url_truthy _); by repeat constructor. }
  destruct (run_cases py_format w p)
    as [(e & _ & ->) | [(e & _ & ->) | [(v & e & _ & _ & ->)
       | [(v & ids & vid & e & _ & _ & _ & ->)
       | [(v & ids & vid & draft & _ & _ & _ & _ & ->)
       | (v & ids & vid & draft & _ & _ & _ & _ & ->)]]]]]; cbn [fst].
  - constructor.
  - by repeat constructor.
  - by constructor.
  - constructor; [done|]. apply Forall_app. split; [done|]. by repeat constructor.
  - constructor; [done|]. apply Forall_app. split; [done|]. by repeat constructor.
  - constructor; [done|]. apply Forall_app. split; [done|].
    constructor; [done|]. constructor; [|constructor].
    cbn [req_headers submission_request].
    rewrite (is_submission_call_submission py_format v). by rewrite orb_true_r.
Qed.

(** X17.  Step 4 only writes: applied to a data object and a non-empty id
    list it never fails, sets [photo], [photos], [vendor_id], [stock] and
    the fixed fields [preparation_days] = 1, [unit_type] = 6304,
    [unit_quantity] = 1 over whatever the data held under those keys, and
    leaves every key outside the eight it may write as the description
    service gave it. *)
Theorem inject_media_overwrites_only (data : gmap string json) (first : json)
    (others : list json) (video_id vendor_id : json) (stock : Z) (tr : list request) :
  exists (draft : gmap string json),
    inject_media (JObj data) (first :: others) video_id vendor_id stock tr =
      (tr, inr (JObj draft)) /\
    draft !! "photo" = Some first /\
    draft !! "photos" = Some (JArr others) /\
    draft !! "vendor_id" = Some vendor_id /\
    draft !! "preparation_days" = Some (JInt 1) /\
    draft !! "stock" = Some (JInt stock) /\
    draft !! "unit_type" = Some (JInt 6304) /\
    draft !! "unit_quantity" = Some (JInt 1) /\
    (forall k, k ∉ written_keys -> draft !! k = data !! k) /\
    dom data ⊆ dom draft.
Proof.
  exists (final_draft data (first :: others) video_id vendor_id stock).
  split; [by rewrite inject_media_result|].
  rewrite final_draft_photo, final_draft_photos.
  assert (Hother : forall k, k ∉ written_keys ->
    final_draft data (first :: others) video_id vendor_id stock !! k = data !! k).
  { intros k Hk. unfold written_keys in Hk.
    rewrite !not_elem_of_cons in Hk.
    destruct Hk as (? & ? & ? & ? & ? & ? & ? & ? & _).
    unfold final_draft, with_video, with_photos.
    do 5 (rewrite lookup_insert_ne by done).
    destruct (truthy video_id); by repeat (rewrite lookup_insert_ne by done). }
  repeat split; try done.
  - unfold final_draft. do 4 (rewrite lookup_insert_ne by done).
    by rewrite lookup_insert_eq.
  - unfold final_draft. do 3 (rewrite lookup_insert_ne by done).
    by rewrite lookup_insert_eq.
  - unfold final_draft. do 2 (rewrite lookup_insert_ne by done).
    by rewrite lookup_insert_eq.
  - unfold final_draft. rewrite lookup_insert_ne by done.
    by rewrite lookup_insert_eq.
  - unfold final_draft. by rewrite lookup_insert_eq.
  - intros k Hk. apply elem_of_dom in Hk as [x Hx]. apply elem_of_dom.
    unfold final_draft, with_video, with_photos.
    repeat (apply lookup_insert_is_Some'; right).
    destruct (truthy video_id);
      repeat (apply lookup_insert_is_Some'; right); eauto.
Qed.

(** X18.  A call to the product endpoint is always the POST built from the
    user-info answer of the same run: its URL is the products template
    filled with the truthy [vendor.id] of that answer, and it carries the
    bearer header of the payload's access token and a JSON body. *)
Theorem submission_target (py_format : json -> string) (w : world)
    (p : TelegramWebhookPayload) (rq : request) :
  rq ∈ (run py_format w p).1 ->
  is_submission_call rq = true ->
  exists (vendor_id draft : json),
    vendor_is w (access_token p) vendor_id /\
    rq = Request POST (BASALAM_PRODUCTS_URL_TEMPLATE_format py_format vendor_id)
           [("Authorization", "Bearer " +:+ access_token p)] (Some draft).
Proof.
  intros Hin Hsub.
  assert (Hmedia : Forall (fun rq => is_submission_call rq = false)
    (media_requests (photos (raw_data_json p)) (video_link_of p))).
  { unfold media_requests. destruct (url_truthy _); by repeat constructor. }
  rewrite Forall_forall in Hmedia.
  destruct (run_cases py_format w p)
    as [(e & _ & Hrun) | [(e & _ & Hrun) | [(v & e & _ & _ & Hrun)
       | [(v & ids & vid & e & _ & _ & _ & Hrun)
       | [(v & ids & vid & draft & _ & _ & _ & _ & Hrun)
       | (v & ids & vid & draft & Hv & _ & _ & _ & Hrun)]]]]];
    rewrite Hrun in Hin; cbn [fst] in Hin.
  - by apply elem_of_nil in Hin.
  - apply list_elem_of_singleton in Hin as ->. discriminate Hsub.
  - apply elem_of_cons in Hin as [-> | Hin]; [discriminate Hsub|].
    apply Hmedia in Hin. congruence.
  - apply elem_of_cons in Hin as [-> | Hin]; [discriminate Hsub|].
    apply elem_of_app in Hin as [Hin | Hin]; [apply Hmedia in Hin; congruence|].
    apply list_elem_of_singleton in Hin as ->. discriminate Hsub.
  - apply elem_of_cons in Hin as [-> | Hin]; [discriminate Hsub|].
    apply elem_of_app in Hin as [Hin | Hin]; [apply Hmedia in Hin; congruence|].
    apply list_elem_of_singleton in Hin as ->. discriminate Hsub.
  - apply elem_of_cons in Hin as [-> | Hin]; [discriminate Hsub|].
    apply elem_of_app in Hin as [Hin | Hin]; [apply Hmedia in Hin; congruence|].
    apply elem_of_cons in Hin as [-> | Hin]; [discriminate Hsub|].
    apply list_elem_of_singleton in Hin as ->.
    exists v, draft. split; [by apply (vendor_result_is _ _ _ _ _ Hv) | done].
Qed.

Lemma submission_target_witness :
  exists (vendor_id draft : json),
    vendor_is (shirt_world (JObj shirt_data)) "token" vendor_id /\
    submission_request "https://core.basalam.com/v3/vendors/42/products" "token"
      (JObj (final_draft shirt_data [JInt 101; JInt 102] JNull (JInt 42) 5)) =
    Request POST (BASALAM_PRODUCTS_URL_TEMPLATE_format sample_format vendor_id)
      [("Authorization", "Bearer token")] (Some draft).
Proof.
  apply (submission_target sample_format (shirt_world (JObj shirt_data))
           (sample_payload None)
           (submission_request "https://core.basalam.com/v3/vendors/42/products" "token"
              (JObj (final_draft shirt_data [JInt 101; JInt 102] JNull (JInt 42) 5)))).
  - vm_compute. do 3 right. left.
  - reflexivity.
Defined.


(** *** Requests the client cannot encode *)

(** X19.  An access token with a non-ASCII character cannot be put in the
    [Authorization] header: the client raises [UnicodeEncodeError] while
    building the user-info request, the handler's [except] clause does not
    catch it, and the request ends there without a single call made. *)
Theorem unencodable_token_no_call (py_format : json -> string) (w : world)
    (p : TelegramWebhookPayload) :
  is_ascii (access_token p) = false ->
  run py_format w p = ([], inl (Builtin UnicodeEncodeError)).
Proof.
  intros Htok.
  assert (Henc : encode_request (user_info_request (access_token p)) =
                 inl UnicodeEncodeError).
  { unfold encode_request, user_info_request, auth_headers.
    cbn [req_headers headers_encodable forallb fst snd].
    rewrite is_ascii_app, Htok. by rewrite !andb_false_r. }
  rewrite run_spec. cbv zeta. rewrite Henc.
  destruct (vendor_result _ _) as [e|[v url]] eqn:Hv; [done|].
  apply vendor_result_answered in Hv as [r Hr].
  apply answered_encode in Hr. congruence.
Qed.

Lemma unencodable_token_no_call_witness :
  run sample_format (shirt_world (JObj shirt_data)) (payload_with_token accented_token) =
  ([], inl (Builtin UnicodeEncodeError)).
Proof.
  apply (unencodable_token_no_call sample_format (shirt_world (JObj shirt_data))
           (payload_with_token accented_token)).
  reflexivity.
Defined.

End Products.
